(** * Order-book snapshot savers and token-list scripts

    A shallow embedding of the four scripts of the repository:

    - [data_fetch/orderbook_snapshot_saver.js]: the replay saver ([Module Replay]);
    - the live saver, the stand-alone script around [streamNormalized]
      ([Module Live]);
    - [data_fetch/binance_token_list.js] and its Bybit twin ([Module TokenList]).

    The scripts are glue around three npm packages.  What the packages do is
    not part of the repository: [tardis-dev] is an interface ([TardisDev]) whose
    functions are taken as they come, the clock and the failures of the
    asynchronous file appends are oracles ([Env]), and the two things the
    scripts rely on from Node and [csv-stringify] (the synchronous file system
    calls and the default rendering of one record) are small executable models,
    so that every definition below can be run on a concrete input. *)

From Stdlib Require Import ZArith String Ascii List DecimalString.
From stdpp Require Import gmap strings list fin_maps.

Local Open Scope string_scope.
Local Open Scope list_scope.

(** ** Characters and strings used by the scripts *)

Definition comma : ascii := ","%char.
Definition dquote : ascii := ascii_of_nat 34.
Definition newline : ascii := ascii_of_nat 10.
Definition nl : string := String newline EmptyString.
Definition empty : string := EmptyString.

(** ['' + n] for an integer [n]. *)
Definition string_of_Z (z : Z) : string := NilZero.string_of_int (Z.to_int z).

(** [Array.prototype.join]. *)
Definition join (sep : string) (parts : list string) : string :=
  String.concat sep parts.

(** ** JavaScript values

    Prices and amounts are JavaScript numbers.  The scripts do two things
    with a number: they test it for truthiness ([x || '']) and they turn it
    into text.  Both are the interface [JsNumber]; [Z_JsNumber] below are the
    integer-valued numbers, on which the examples run. *)

Class JsNumber (num : Type) := {
  (** [0], [-0] and [NaN] are the falsy numbers *)
  num_falsy : num -> bool;
  (** ['' + n] *)
  num_to_string : num -> string
}.

#[export] Instance Z_JsNumber : JsNumber Z := {
  num_falsy := fun z => (z =? 0)%Z;
  num_to_string := string_of_Z
}.

Module Js.
Section Values.
Context {num : Type} `{JsNumber num}.

(** The values that reach a cell of a CSV record. *)
Inductive value : Type :=
| VUndefined
| VNumber (n : num)
| VString (s : string)
| VDate (ms : Z).

(** [ToBoolean]: [undefined], the falsy numbers and [''] are falsy; a
    [Date] is an object and so truthy. *)
Definition truthy (v : value) : bool :=
  match v with
  | VUndefined => false
  | VNumber n => negb (num_falsy n)
  | VString s => negb (String.eqb s empty)
  | VDate _ => true
  end.

(** [a || b] *)
Definition or (a b : value) : value := if truthy a then a else b.

(** A field typed [number | undefined]. *)
Definition of_optional (o : option num) : value :=
  match o with
  | Some n => VNumber n
  | None => VUndefined
  end.

End Values.
Arguments value : clear implicits.
End Js.

(** ** [csv-stringify/sync]

    [stringify(records, { header: false })] with the package's defaults:
    a [Date] is cast to its epoch milliseconds, a number to ['' + n],
    [undefined] to the empty field; a field is quoted when it holds the
    delimiter, a quote or the record delimiter; fields are joined by [,] and
    every record ends with a line feed. *)
Module Csv.
Section Stringify.
Context {num : Type} `{JsNumber num}.

Definition cast (v : Js.value num) : string :=
  match v with
  | Js.VUndefined => empty
  | Js.VNumber n => num_to_string n
  | Js.VString s => s
  | Js.VDate ms => string_of_Z ms
  end.

Fixpoint contains (c : ascii) (s : string) : bool :=
  match s with
  | EmptyString => false
  | String a rest => Ascii.eqb a c || contains c rest
  end.

Definition needs_quote (s : string) : bool :=
  contains comma s || contains dquote s || contains newline s.

Fixpoint escape (s : string) : string :=
  match s with
  | EmptyString => EmptyString
  | String a rest =>
      if Ascii.eqb a dquote then String dquote (String dquote (escape rest))
      else String a (escape rest)
  end.

Definition field (s : string) : string :=
  if needs_quote s then String dquote (escape s +:+ String dquote EmptyString)
  else s.

Definition record (cells : list (Js.value num)) : string :=
  join (String comma EmptyString) (map (fun v => field (cast v)) cells) +:+ nl.

Definition stringify (records : list (list (Js.value num))) : string :=
  join empty (map record records).

End Stringify.
End Csv.

(** ** Paths

    A path is the list of its segments from the root. *)
Module Path.

Definition step (acc : list string) (seg : string) : list string :=
  if String.eqb seg ".." then removelast acc
  else if String.eqb seg "." || String.eqb seg empty then acc
  else acc ++ [seg].

(** [path.join(a, b)]: concatenate, then resolve [.] and [..]. *)
Definition join (a b : list string) : list string :=
  fold_left step (a ++ b) [].

Definition dirname (p : list string) : list string := removelast p.

(** The proper ancestors of [p] and [p] itself, shortest first. *)
Definition prefixes (p : list string) : list (list string) :=
  map (fun n => firstn n p) (seq 1 (length p)).

End Path.

(** ** Results of calls that may throw *)

Inductive result (A : Type) : Type :=
| Ok (a : A)
| Throw (e : string).
Arguments Ok {A} a.
Arguments Throw {A} e.

(** ** The file system

    Directories and regular files; the root [[]] always exists. *)
Module Fs.

Record FileSystem : Type := mkFs {
  dirs : gset (list string);
  files : gmap (list string) string
}.

Definition is_dir (fs : FileSystem) (p : list string) : bool :=
  bool_decide (p = []) || bool_decide (p ∈ dirs fs).

Definition is_file (fs : FileSystem) (p : list string) : bool :=
  match files fs !! p with
  | Some _ => true
  | None => false
  end.

(** [fs.existsSync(p)] *)
Definition existsSync (fs : FileSystem) (p : list string) : bool :=
  is_dir fs p || is_file fs p.

(** [fs.mkdirSync(p, { recursive: true })]: creates [p] and its missing
    ancestors; throws when a component is a regular file. *)
Definition mkdirSync (fs : FileSystem) (p : list string) : result FileSystem :=
  if existsb (is_file fs) (Path.prefixes p) then Throw "ENOTDIR"
  else Ok (mkFs (dirs fs ∪ list_to_set (Path.prefixes p)) (files fs)).

(** Where a write to [p] lands: it throws on a directory ([EISDIR]), under
    a path one of whose components is a regular file ([ENOTDIR]) and in a
    missing directory ([ENOENT]); otherwise the file gets the content
    [f old]. *)
Definition write (f : option string -> string) (fs : FileSystem)
    (p : list string) : result FileSystem :=
  if is_dir fs p then Throw "EISDIR"
  else if existsb (is_file fs) (Path.prefixes (Path.dirname p))
  then Throw "ENOTDIR"
  else if is_dir fs (Path.dirname p)
  then Ok (mkFs (dirs fs) (<[p := f (files fs !! p)]> (files fs)))
  else Throw "ENOENT".

(** [fs.writeFileSync(p, data)]: create or truncate. *)
Definition writeFileSync (fs : FileSystem) (p : list string) (data : string)
    : result FileSystem :=
  write (fun _ => data) fs p.

(** What a completed [fs.appendFile(p, data, cb)] does to the disk:
    create or extend. *)
Definition append (fs : FileSystem) (p : list string) (data : string)
    : result FileSystem :=
  write (fun old => default empty old +:+ data) fs p.

End Fs.

(** ** The process: disk, log stream, console, clock

    [logFile] is what went through [logStream.write], [console] what went
    through [console.log] and [console.error], both oldest first.  The savers
    keep their log in a file of their own beside the script; [disk] is the
    disk apart from that file.
    [appendRequests] records every [fs.appendFile] call in the order the
    calls are made, whatever their fate. *)

Record World : Type := mkWorld {
  disk : Fs.FileSystem;
  logFile : list string;
  console : list string;
  clockReads : nat;
  appendRequests : list (list string * string)
}.

Definition set_disk (fs : Fs.FileSystem) (w : World) : World :=
  mkWorld fs (logFile w) (console w) (clockReads w) (appendRequests w).

(** What the program does not control: [now k] is the ISO text of the
    [k]-th [new Date()], and [fault k] the error, if any, with which the
    operating system fails the [k]-th append. *)
Record Env : Type := mkEnv {
  now : nat -> string;
  fault : nat -> option string
}.

(** Computations on the process that may throw. *)
Definition M (A : Type) : Type := World -> World * result A.

Definition ret {A} (a : A) : M A := fun w => (w, Ok a).

Definition bind {A B} (c : M A) (k : A -> M B) : M B :=
  fun w =>
    match c w with
    | (w', Ok a) => k a w'
    | (w', Throw e) => (w', Throw e)
    end.

Notation "'let*' x ':=' c 'in' k" := (bind c (fun x => k))
  (at level 10, x name, c at level 100, k at level 200).
Notation "c '>>' k" := (bind c (fun _ => k))
  (at level 100, k at level 200, right associativity).

(** [try { body } catch (error) { handler }] *)
Definition try_catch {A} (body : M A) (handler : string -> M A) : M A :=
  fun w =>
    match body w with
    | (w', Ok a) => (w', Ok a)
    | (w', Throw e) => handler e w'
    end.

(** Lifting a synchronous file system call. *)
Definition sync (op : Fs.FileSystem -> result Fs.FileSystem) : M unit :=
  fun w =>
    match op (disk w) with
    | Ok fs' => (set_disk fs' w, Ok tt)
    | Throw e => (w, Throw e)
    end.

Definition existsSync (p : list string) : M bool :=
  fun w => (w, Ok (Fs.existsSync (disk w) p)).

Definition console_log (line : string) : M unit :=
  fun w =>
    (mkWorld (disk w) (logFile w) (console w ++ [line]) (clockReads w)
       (appendRequests w), Ok tt).

(** [console.error] prints to the same console. *)
Definition console_error (line : string) : M unit := console_log line.

(** [logMessage(message)], the same in both savers:
    [[
    const timestamp = new Date().toISOString();
    logStream.write(`[${timestamp}] ${message}\n`);
    ]] *)
Definition logMessage (env : Env) (message : string) : M unit :=
  fun w =>
    let timestamp := now env (clockReads w) in
    (mkWorld (disk w)
       (logFile w ++ ["[" +:+ timestamp +:+ "] " +:+ message +:+ nl])
       (console w) (S (clockReads w)) (appendRequests w), Ok tt).

(** [fs.appendFile(p, data, callback)].  The request is recorded, the
    operating system performs it or fails it ([perform]), and the callback
    receives the error or [null].  The callback runs when the operation
    completes; the model completes each request before the next one is
    made. *)
Definition perform (env : Env) (p : list string) (data : string) (w : World)
    : World * option string :=
  let k := length (appendRequests w) in
  let w1 := mkWorld (disk w) (logFile w) (console w) (clockReads w)
              (appendRequests w ++ [(p, data)]) in
  match fault env k with
  | Some err => (w1, Some err)
  | None =>
      match Fs.append (disk w1) p data with
      | Ok fs' => (set_disk fs' w1, None)
      | Throw err => (w1, Some err)
      end
  end.

Definition appendFile (env : Env) (p : list string) (data : string)
    (callback : option string -> M unit) : M unit :=
  fun w => let '(w1, err) := perform env p data w in callback err w1.

(** [for await (const message of messages) body]: the state after the
    stream has delivered the messages of the list.  A live stream has no end;
    the list is then any finite prefix of it. *)
Fixpoint forAwait {A} (body : A -> M unit) (messages : list A) : M unit :=
  match messages with
  | [] => ret tt
  | message :: rest => body message >> forAwait body rest
  end.

(** ** [tardis-dev] *)

Module Tardis.

(** One side's level in a normalized message; either field may be
    [undefined]. *)
Record level (num : Type) : Type := mkLevel {
  price : option num;
  amount : option num
}.
Arguments mkLevel {num}.
Arguments price {num}.
Arguments amount {num}.

(** A message of the normalized stream, as far as the savers read it.
    The two timestamps are [Date]s, given by their epoch milliseconds. *)
Record message (num : Type) : Type := mkMessage {
  type : string;
  timestamp : Z;
  localTimestamp : Z;
  bids : list (level num);
  asks : list (level num)
}.
Arguments mkMessage {num}.
Arguments type {num}.
Arguments timestamp {num}.
Arguments localTimestamp {num}.
Arguments bids {num}.
Arguments asks {num}.

(** The options of [replayNormalized]. *)
Record replayOptions : Type := mkReplayOptions {
  exchange : string;
  symbols : list string;
  from : string;
  to : string
}.

(** The options of [streamNormalized]. *)
Record streamOptions : Type := mkStreamOptions {
  live_exchange : string;
  live_symbols : list string
}.

(** The options of [computeBookSnapshots]. *)
Record snapshotOptions : Type := mkSnapshotOptions {
  depth : nat;
  interval : Z
}.

(** An entry of [availableSymbols] in the answer of [getExchangeDetails]. *)
Record symbolDetails : Type := mkSymbolDetails {
  id : string;
  symbol_type : string;
  availableSince : string;
  availableTo : option string
}.

Record exchangeDetails : Type := mkExchangeDetails {
  availableSymbols : list symbolDetails
}.

End Tardis.

(** The functions the scripts import from [tardis-dev].  A stream is the
    list of the messages it delivers; [None] stands for a falsy return
    value.  [compute messages (computeBookSnapshots options)] is the stream
    of [messages] with the computed snapshots added. *)
Class TardisDev (num : Type) := {
  replayNormalized : Tardis.replayOptions -> option (list (Tardis.message num));
  streamNormalized : Tardis.streamOptions -> option (list (Tardis.message num));
  compute : list (Tardis.message num) -> Tardis.snapshotOptions ->
            list (Tardis.message num)
}.

(** [getExchangeDetails(exchange)]: the answer, or the error the promise is
    rejected with. *)
Class TardisApi := {
  getExchangeDetails : string -> result Tardis.exchangeDetails
}.

(** ** What the two savers share

    The header line, the loop body and [logMessage] are the same text in
    both files. *)

Section Saver.
Context {num : Type} `{JsNumber num} `{TardisDev num}.

Definition csvHeader : string :=
  "timestamp,localTimestamp,bid_price_0,bid_amount_0,ask_price_0,ask_amount_0"
  +:+ nl.

(** The object literal [data] built from a message. *)
Record rowData : Type := mkRowData {
  timestamp : Js.value num;
  localTimestamp : Js.value num;
  bid_price_0 : Js.value num;
  bid_amount_0 : Js.value num;
  ask_price_0 : Js.value num;
  ask_amount_0 : Js.value num
}.

(** [l?.price] and [l?.amount], for [l] an element of an array or
    [undefined]. *)
Definition opt_price (l : option (Tardis.level num)) : Js.value num :=
  match l with
  | Some l => Js.of_optional (Tardis.price l)
  | None => Js.VUndefined
  end.

Definition opt_amount (l : option (Tardis.level num)) : Js.value num :=
  match l with
  | Some l => Js.of_optional (Tardis.amount l)
  | None => Js.VUndefined
  end.

Definition extract (message : Tardis.message num) : rowData :=
  {| timestamp := Js.VDate (Tardis.timestamp message);
     localTimestamp := Js.VDate (Tardis.localTimestamp message);
     bid_price_0 := Js.or (opt_price (Tardis.bids message !! 0%nat)) (Js.VString empty);
     bid_amount_0 := Js.or (opt_amount (Tardis.bids message !! 0%nat)) (Js.VString empty);
     ask_price_0 := Js.or (opt_price (Tardis.asks message !! 0%nat)) (Js.VString empty);
     ask_amount_0 := Js.or (opt_amount (Tardis.asks message !! 0%nat)) (Js.VString empty) |}.

(** The array handed to [stringify]. *)
Definition cells (data : rowData) : list (Js.value num) :=
  [timestamp data; localTimestamp data; bid_price_0 data; bid_amount_0 data;
   ask_price_0 data; ask_amount_0 data].

Definition csvRow (message : Tardis.message num) : string :=
  Csv.stringify [cells (extract message)].

Definition is_book_snapshot (message : Tardis.message num) : bool :=
  String.eqb (Tardis.type message) "book_snapshot".

(** The callback of [fs.appendFile]. *)
Definition onAppended (env : Env) (err : option string) : M unit :=
  match err with
  | Some err => logMessage env ("Error writing to CSV file: " +:+ err)
  | None => logMessage env "Processed and saved CSV row"
  end.

(** The body of the [for await] loop. *)
Definition onMessage (env : Env) (filePath : list string)
    (message : Tardis.message num) : M unit :=
  if is_book_snapshot message
  then appendFile env filePath (csvRow message) (onAppended env)
  else ret tt.

(** [computeBookSnapshots({ depth: 1, interval: 60 * 1000 })] *)
Definition snapshotOptions : Tardis.snapshotOptions :=
  Tardis.mkSnapshotOptions 1 (60 * 1000).

Definition notInitialized : string :=
  "Stream not initialized. Call initializeStream() before starting.".

(** The header is written when nothing exists at the path. *)
Definition writeHeaderIfMissing (filePath : list string) : M unit :=
  let* found := existsSync filePath in
  if negb found
  then sync (fun fs => Fs.writeFileSync fs filePath csvHeader)
  else ret tt.

End Saver.

(** ** The replay saver, [data_fetch/orderbook_snapshot_saver.js] *)

Module Replay.
Section Replay.
Context {num : Type} `{JsNumber num} `{TardisDev num}.

Record OrderBookSnapshotSaver : Type := mkSaver {
  start_date : string;
  exchange : string;
  symbol : string;
  filePath : list string;
  stream : option (list (Tardis.message num));
  to_date : string
}.

(** The assignments to [this] in the constructor. *)
Definition fields (exchange symbol : string) (filePath dataDir : list string)
    (start_date : string) : OrderBookSnapshotSaver :=
  {| start_date := start_date;
     exchange := exchange;
     symbol := symbol;
     filePath := Path.join dataDir filePath;
     stream := None;
     to_date := "2019-11-18" |}.

Definition constructor (exchange symbol : string) (file dataDir : list string)
    (start_date : string) : M OrderBookSnapshotSaver :=
  let this := fields exchange symbol file dataDir start_date in
  writeHeaderIfMissing this.(filePath) >> ret this.

(** The request sent to [replayNormalized]. *)
Definition request (this : OrderBookSnapshotSaver) : Tardis.replayOptions :=
  {| Tardis.exchange := this.(exchange);
     Tardis.symbols := [this.(symbol)];
     Tardis.from := this.(start_date);
     Tardis.to := this.(to_date) |}.

Definition initializeStream (this : OrderBookSnapshotSaver)
    : OrderBookSnapshotSaver * option (list (Tardis.message num)) :=
  let stream := replayNormalized (request this) in
  (mkSaver this.(start_date) this.(exchange) this.(symbol) this.(filePath)
     stream this.(to_date), stream).

Definition startSavingSnapshots (env : Env) (this : OrderBookSnapshotSaver)
    : M OrderBookSnapshotSaver :=
  let '(this, messages) := initializeStream this in
  console_log this.(symbol) >>
  console_log ("from date " +:+ this.(start_date)) >>
  console_log ("to date " +:+ this.(to_date)) >>
  console_log ("exchange " +:+ this.(exchange)) >>
  match messages with
  | None => logMessage env notInitialized >> ret this
  | Some messages =>
      let messagesWithComputedTypes := compute messages snapshotOptions in
      forAwait (onMessage env this.(filePath)) messagesWithComputedTypes >>
      ret this
  end.

End Replay.
Arguments OrderBookSnapshotSaver : clear implicits.
End Replay.

(** ** The live saver, the script around [streamNormalized] *)

Module Live.
Section Live.
Context {num : Type} `{JsNumber num} `{TardisDev num}.

(** [__dirname] of the script. *)
Variable dirname : list string.

Definition dataDir : list string :=
  Path.join dirname [".."; "data"; "uncleaned"; "orderbook_snapshot_data"].

(** The statements of the module before the class: the data directory is
    created when it is missing. *)
Definition ensureDataDir : M unit :=
  let* found := existsSync dataDir in
  if negb found then sync (fun fs => Fs.mkdirSync fs dataDir) else ret tt.

Record OrderBookSnapshotSaver : Type := mkSaver {
  exchange : string;
  symbol : string;
  filePath : list string;
  stream : option (list (Tardis.message num))
}.

(** The assignments to [this] in the constructor. *)
Definition fields (exchange symbol : string) (filePath : list string)
    : OrderBookSnapshotSaver :=
  {| exchange := exchange;
     symbol := symbol;
     filePath := Path.join dataDir filePath;
     stream := None |}.

Definition constructor (exchange symbol : string) (file : list string)
    : M OrderBookSnapshotSaver :=
  let this := fields exchange symbol file in
  writeHeaderIfMissing this.(filePath) >> ret this.

Definition request (this : OrderBookSnapshotSaver) : Tardis.streamOptions :=
  {| Tardis.live_exchange := this.(exchange);
     Tardis.live_symbols := [this.(symbol)] |}.

(** [compute] is handed [this.stream] as it is; over a falsy stream the
    result cannot be iterated. *)
Definition initializeStream (this : OrderBookSnapshotSaver)
    : OrderBookSnapshotSaver * option (list (Tardis.message num)) :=
  let stream := streamNormalized (request this) in
  (mkSaver this.(exchange) this.(symbol) this.(filePath) stream,
   option_map (fun messages => compute messages snapshotOptions) stream).

Definition startSavingSnapshots (env : Env) (this : OrderBookSnapshotSaver)
    : M OrderBookSnapshotSaver :=
  match this.(stream) with
  | None => logMessage env notInitialized >> ret this
  | Some _ =>
      let '(this, messages) := initializeStream this in
      match messages with
      | Some messages =>
          forAwait (onMessage env this.(filePath)) messages >> ret this
      | None => fun w => (w, Throw "TypeError: messages is not async iterable")
      end
  end.

(** The script from top to bottom, with its example usage:
    [[
    const snapshotSaver = new OrderBookSnapshotSaver('bitmex', 'XBTUSD', 'orderbook_snapshot_data.csv');
    snapshotSaver.startSavingSnapshots();
    ]] *)
Definition main (env : Env) : M OrderBookSnapshotSaver :=
  ensureDataDir >>
  let* snapshotSaver :=
    constructor "bitmex" "XBTUSD" ["orderbook_snapshot_data.csv"] in
  startSavingSnapshots env snapshotSaver.

End Live.
Arguments OrderBookSnapshotSaver : clear implicits.
End Live.

(** ** The token-list scripts

    [data_fetch/binance_token_list.js] and its Bybit twin are the same
    function but for three literals, the fields of [script]. *)

Module TokenList.

Record script : Type := mkScript {
  exchangeName : string;
  outputDirectory : list string;
  fileName : string
}.

Definition binance : script :=
  mkScript "binance-futures" [".."; "data"; "uncleaned"; "binance_token_list"]
    "binance_token_list.csv".

Definition bybit : script :=
  mkScript "bybit" [".."; "data"; "uncleaned"; "bybit_token_list"]
    "bybit_token_list.csv".

(** The object built by the first [map]. *)
Record entry : Type := mkEntry {
  id : string;
  type : string;
  availableSince : string
}.

Definition pick (symbol : Tardis.symbolDetails) : entry :=
  {| id := Tardis.id symbol;
     type := Tardis.symbol_type symbol;
     availableSince := Tardis.availableSince symbol |}.

(** [`${symbol.id},${symbol.type},${symbol.availableSince}`] *)
Definition line (symbol : entry) : string :=
  symbol.(id) +:+ "," +:+ symbol.(type) +:+ "," +:+ symbol.(availableSince).

Definition csvHeader : string := "id,type,availableSince" +:+ nl.

Definition csvContent (details : Tardis.exchangeDetails) : string :=
  let availableSymbols := map pick (Tardis.availableSymbols details) in
  let csvRows := join nl (map line availableSymbols) in
  csvHeader +:+ csvRows.

(** A path as text, for the console. *)
Definition show (p : list string) : string := "/" +:+ join "/" p.

Section Script.
Context `{TardisApi}.

(** [__dirname] of the script. *)
Variable dirname : list string.

Definition outputDir (s : script) : list string :=
  Path.join dirname s.(outputDirectory).

Definition filePath (s : script) : list string :=
  Path.join (outputDir s) [s.(fileName)].

(** [await getExchangeDetails(name)] *)
Definition await (name : string) : M Tardis.exchangeDetails :=
  fun w => (w, getExchangeDetails name).

(** The block under [try]. *)
Definition body (s : script) : M unit :=
  let* details := await s.(exchangeName) in
  let csvContent := csvContent details in
  let* found := existsSync (outputDir s) in
  (if negb found then sync (fun fs => Fs.mkdirSync fs (outputDir s)) else ret tt) >>
  sync (fun fs => Fs.writeFileSync fs (filePath s) csvContent) >>
  console_log ("CSV file written successfully to " +:+ show (filePath s)).

(** The handler under [catch]; both scripts print the same text. *)
Definition handler (error : string) : M unit :=
  console_error ("Error fetching Binance exchange details: " +:+ error).

Definition checkSymbolAvailability (s : script) : M unit :=
  try_catch (body s) handler.

End Script.

Definition checkBinanceSymbolAvailability `{TardisApi} (dirname : list string)
    : M unit :=
  checkSymbolAvailability dirname binance.

Definition checkBybitSymbolAvailability `{TardisApi} (dirname : list string)
    : M unit :=
  checkSymbolAvailability dirname bybit.

End TokenList.

(** ** What the properties speak of *)

Section Observations.
Context {num : Type} `{JsNumber num}.

(** The snapshot messages of a stream, in stream order. *)
Definition snapshots (messages : list (Tardis.message num))
    : list (Tardis.message num) :=
  List.filter is_book_snapshot messages.

(** The requests the loop makes for a stream. *)
Definition rowsFor (filePath : list string) (messages : list (Tardis.message num))
    : list (list string * string) :=
  map (fun message => (filePath, csvRow message)) (snapshots messages).

(** The rows asked for between two states of the process. *)
Definition newRows (before after : World) : list string :=
  map snd (drop (length (appendRequests before)) (appendRequests after)).

(** The text of the file at [p]; nothing when there is none. *)
Definition content (w : World) (p : list string) : string :=
  default empty (Fs.files (disk w) !! p).

(** The error handed to the callback of the next append. *)
Definition appendError (env : Env) (p : list string) (data : string) (w : World)
    : option string :=
  snd (perform env p data w).

(** The text of a price or an amount in a row: the number, and nothing for
    [undefined] and for a falsy number. *)
Definition shown (o : option num) : string :=
  match o with
  | Some n => if num_falsy n then empty else num_to_string n
  | None => empty
  end.

Definition bestPrice (side : list (Tardis.level num)) : string :=
  match side with
  | best :: _ => shown (Tardis.price best)
  | [] => empty
  end.

Definition bestAmount (side : list (Tardis.level num)) : string :=
  match side with
  | best :: _ => shown (Tardis.amount best)
  | [] => empty
  end.

(** The six columns of the row of a message, after the header
    [timestamp,localTimestamp,bid_price_0,bid_amount_0,ask_price_0,ask_amount_0]. *)
Definition columns (message : Tardis.message num) : list string :=
  [ string_of_Z (Tardis.timestamp message);
    string_of_Z (Tardis.localTimestamp message);
    bestPrice (Tardis.bids message);
    bestAmount (Tardis.bids message);
    bestPrice (Tardis.asks message);
    bestAmount (Tardis.asks message) ].

End Observations.

Section Savers.
Context {num : Type} `{JsNumber num} `{TardisDev num}.

(** A construction of a saver for the file [p], of either class, that
    takes the process from [w] to [w']. *)
Inductive constructs : World -> list string -> World -> Prop :=
| constructs_replay exchange symbol file dataDir start_date w w'
    (this : Replay.OrderBookSnapshotSaver num) :
    Replay.constructor exchange symbol file dataDir start_date w = (w', Ok this) ->
    constructs w this.(Replay.filePath) w'
| constructs_live dirname exchange symbol file w w'
    (this : Live.OrderBookSnapshotSaver num) :
    Live.constructor dirname exchange symbol file w = (w', Ok this) ->
    constructs w this.(Live.filePath) w'.

(** The state of the process after the four lines on the console. *)
Definition announced (this : Replay.OrderBookSnapshotSaver num) (w : World) : World :=
  mkWorld (disk w) (logFile w)
    (console w ++ [this.(Replay.symbol);
                   "from date " +:+ this.(Replay.start_date);
                   "to date " +:+ this.(Replay.to_date);
                   "exchange " +:+ this.(Replay.exchange)])
    (clockReads w) (appendRequests w).

End Savers.
Arguments constructs : clear implicits.

(** The text of a symbol in the file. *)
Definition lineOf (symbol : Tardis.symbolDetails) : string :=
  Tardis.id symbol +:+ "," +:+ Tardis.symbol_type symbol +:+ "," +:+
  Tardis.availableSince symbol.

(** A segment that [path.join] keeps as it is. *)
Definition plain (seg : string) : bool :=
  negb (String.eqb seg "..") && negb (String.eqb seg ".") &&
  negb (String.eqb seg empty).

(** A line of the log, written at the [k]-th reading of the clock. *)
Definition logLine (env : Env) (k : nat) (text : string) : string :=
  "[" +:+ now env k +:+ "] " +:+ text +:+ nl.

(** What the callback of an append says, by its outcome. *)
Definition outcomeText (err : option string) : string :=
  match err with
  | Some err => "Error writing to CSV file: " +:+ err
  | None => "Processed and saved CSV row"
  end.

Section Claimed.
Context {num : Type} {JN : JsNumber num}.

(** The columns of a row as the specification words them, to set beside
    [columns]: the two timestamps, then the price and the amount of the best
    bid and of the best ask, each the text of the number and empty only where
    the level or the field is absent. *)
Definition populated (o : option num) : string :=
  match o with
  | Some n => num_to_string n
  | None => empty
  end.

Definition bestOf (field : Tardis.level num -> option num)
    (side : list (Tardis.level num)) : string :=
  match side with
  | best :: _ => populated (field best)
  | [] => empty
  end.

Definition claimedColumns (message : Tardis.message num) : list string :=
  [ string_of_Z (Tardis.timestamp message);
    string_of_Z (Tardis.localTimestamp message);
    bestOf Tardis.price (Tardis.bids message);
    bestOf Tardis.amount (Tardis.bids message);
    bestOf Tardis.price (Tardis.asks message);
    bestOf Tardis.amount (Tardis.asks message) ].

Definition claimedRow (message : Tardis.message num) : string :=
  join "," (map Csv.field (claimedColumns message)) +:+ nl.

(** No number at the best level of the side is falsy. *)
Definition truthyField (o : option num) : bool :=
  match o with
  | Some n => negb (num_falsy n)
  | None => true
  end.

Definition truthyBest (side : list (Tardis.level num)) : bool :=
  match side with
  | best :: _ => truthyField (Tardis.price best) && truthyField (Tardis.amount best)
  | [] => true
  end.

End Claimed.

Section Bounds.
Context {num : Type} {TD : TardisDev num}.

(** Modelled from the spec: the contract of [replayNormalized], a function
    of [tardis-dev] whose code is not in the repository.  The specification
    has the event source in replay mode "bounded by a start and end
    timestamp", ending at the end; a stream being a list, it ends, and the
    bound is that every message of the stream returned for a range lies
    within the range.  [covers from to message] reads: the message lies
    between the two dates. *)
Definition replayIsBounded
    (covers : string -> string -> Tardis.message num -> Prop) : Prop :=
  forall options messages,
    replayNormalized options = Some messages ->
    Forall (covers (Tardis.from options) (Tardis.to options)) messages.

End Bounds.

(** ** A concrete run

    Integer prices, a clock that ticks once a second, and a [tardis-dev]
    double: the replayed stream of one minute carries its snapshot already
    and [compute] adds nothing; the exchange details are known for
    [binance-futures] only. *)

Module Sample.

Definition two (n : nat) : string :=
  if (n <? 10)%nat then "0" +:+ string_of_Z (Z.of_nat n)
  else string_of_Z (Z.of_nat n).

Definition clock (k : nat) : string :=
  "2019-11-17T00:00:" +:+ two (k mod 60) +:+ ".000Z".

(** No append fails. *)
Definition calm : Env := mkEnv clock (fun _ => None).

(** The second append fails. *)
Definition flaky : Env :=
  mkEnv clock (fun k => if (k =? 1)%nat then Some "Error: EMFILE: too many open files" else None).

Definition change (t : Z) (bids asks : list (Tardis.level Z)) : Tardis.message Z :=
  Tardis.mkMessage "book_change" t (t + 5) bids asks.

Definition snapshot (t : Z) (bids asks : list (Tardis.level Z)) : Tardis.message Z :=
  Tardis.mkMessage "book_snapshot" t (t + 5) bids asks.

Definition lvl (p a : Z) : Tardis.level Z := Tardis.mkLevel (Some p) (Some a).

Definition minute : list (Tardis.message Z) :=
  [ change 0 [lvl 100 5] [lvl 101 3];
    snapshot 60000 [lvl 100 5] [lvl 101 3];
    change 60000 [lvl 100 7] [];
    snapshot 120000 [lvl 100 7] [lvl 101 3];
    snapshot 180000 [] [lvl 101 3] ].

#[export] Instance tardis : TardisDev Z := {
  replayNormalized := fun _ => Some minute;
  streamNormalized := fun _ => Some minute;
  compute := fun messages _ => messages
}.

Definition listed : Tardis.exchangeDetails :=
  Tardis.mkExchangeDetails
    [ Tardis.mkSymbolDetails "btcusdt" "perpetual" "2019-11-17T00:00:00.000Z" None;
      Tardis.mkSymbolDetails "ethusdt" "perpetual" "2019-11-27T00:00:00.000Z"
        (Some "2030-01-01T00:00:00.000Z") ].

#[export] Instance api : TardisApi := {
  getExchangeDetails := fun name =>
    if String.eqb name "binance-futures" then Ok listed
    else Throw "Error: Request failed with status code 401"
}.

(** The script lives in [/repo/data_fetch]; the directory for the
    snapshots exists. *)
Definition here : list string := ["repo"; "data_fetch"].
Definition dataDir : list string := ["repo"; "data"; "snapshots"].

Definition disk0 : Fs.FileSystem :=
  Fs.mkFs (list_to_set (Path.prefixes here) ∪ list_to_set (Path.prefixes dataDir)) ∅.

Definition boot : World := mkWorld disk0 [] [] 0 [].

(** The disk is full: every append fails. *)
Definition enospc : string := "Error: ENOSPC: no space left on device".
Definition full : Env := mkEnv clock (fun _ => Some enospc).

(** A replay saver for the first minute of the 17th, and the process once
    it is constructed. *)
Definition saver : Replay.OrderBookSnapshotSaver Z :=
  Replay.fields "binance-futures" "btcusdt" ["btcusdt.csv"] dataDir "2019-11-17".

Definition built : World :=
  fst (Replay.constructor (num := Z) "binance-futures" "btcusdt" ["btcusdt.csv"]
         dataDir "2019-11-17" boot).

Definition file : list string := saver.(Replay.filePath).

(** A live saver as the script constructs it, and the process after the
    Binance list has been written. *)
Definition liveSaver : Live.OrderBookSnapshotSaver Z :=
  Live.fields here "bitmex" "XBTUSD" ["orderbook_snapshot_data.csv"].

Definition listedOnce : World := fst (TokenList.body here TokenList.binance boot).

(** A list script whose output directory lies under the CSV file of the
    saver. *)
Definition blocked : TokenList.script :=
  TokenList.mkScript "binance-futures" ["btcusdt.csv"; "lists"] "list.csv".

(** The time stamps of the sample stream count from the start of the 17th
    of November 2019; [day] is the start of a day on that scale, and
    [between] what it is for a message to lie in a range of days. *)
Definition day (date : string) : Z :=
  if String.eqb date "2019-11-17" then 0
  else if String.eqb date "2019-11-18" then 86400000
  else if String.eqb date "2019-11-19" then 172800000
  else 0.

Definition between (from to : string) (message : Tardis.message Z) : Prop :=
  (day from <= Tardis.timestamp message < day to)%Z.

Definition late : Tardis.message Z := snapshot 90000000 [lvl 100 9] [lvl 101 9].

(** A [tardis-dev] double that looks at the range: of the two days it
    holds, it replays the messages of the range asked for. *)
Definition replayed (options : Tardis.replayOptions) : list (Tardis.message Z) :=
  List.filter
    (fun message =>
       (day (Tardis.from options) <=? Tardis.timestamp message)%Z &&
       (Tardis.timestamp message <? day (Tardis.to options))%Z)
    (minute ++ [late]).

Definition ranged : TardisDev Z := {|
  replayNormalized := fun options => Some (replayed options);
  streamNormalized := fun _ => Some minute;
  compute := fun messages _ => messages
|}.

Definition first : Tardis.message Z := snapshot 60000 [lvl 100 5] [lvl 101 3].
Definition second : Tardis.message Z := snapshot 120000 [lvl 100 7] [lvl 101 3].

End Sample.

(** * Properties *)

(** ** The loop of the savers *)

Section Loop.
Context {num : Type} `{JsNumber num}.

Lemma perform_requests env p data w :
  appendRequests (fst (perform env p data w)) = appendRequests w ++ [(p, data)].
Proof.
  unfold perform. destruct (fault env _); [reflexivity |].
  destruct (Fs.append _ _ _); reflexivity.
Qed.

Lemma perform_quiet env p data w :
  logFile (fst (perform env p data w)) = logFile w /\
  console (fst (perform env p data w)) = console w /\
  clockReads (fst (perform env p data w)) = clockReads w.
Proof.
  unfold perform. destruct (fault env _); [auto |].
  destruct (Fs.append _ _ _); auto.
Qed.

Lemma perform_failed env p data w err :
  appendError env p data w = Some err ->
  disk (fst (perform env p data w)) = disk w.
Proof.
  unfold appendError, perform. destruct (fault env _); [reflexivity |].
  destruct (Fs.append _ _ _); [discriminate | reflexivity].
Qed.

Lemma onAppended_ok env err w : snd (onAppended env err w) = Ok tt.
Proof. destruct err; reflexivity. Qed.

Lemma onAppended_keeps env err w :
  disk (fst (onAppended env err w)) = disk w /\
  appendRequests (fst (onAppended env err w)) = appendRequests w /\
  console (fst (onAppended env err w)) = console w.
Proof. destruct err; auto. Qed.

Lemma onMessage_ok env p message w :
  snd (onMessage env p message w) = Ok tt.
Proof.
  unfold onMessage, appendFile. destruct (is_book_snapshot message); [| reflexivity].
  destruct (perform env p (csvRow message) w). apply onAppended_ok.
Qed.

Lemma onMessage_requests env p message w :
  appendRequests (fst (onMessage env p message w)) =
  appendRequests w ++ rowsFor p [message].
Proof.
  unfold onMessage, appendFile, rowsFor, snapshots. simpl.
  destruct (is_book_snapshot message); simpl; [| by rewrite app_nil_r].
  pose proof (perform_requests env p (csvRow message) w) as Hreq.
  destruct (perform env p (csvRow message) w) as [w1 err]; simpl in *.
  destruct (onAppended_keeps env err w1) as (_ & -> & _). exact Hreq.
Qed.

Lemma onMessage_console env p message w :
  console (fst (onMessage env p message w)) = console w.
Proof.
  unfold onMessage, appendFile.
  destruct (is_book_snapshot message); [| reflexivity].
  destruct (perform_quiet env p (csvRow message) w) as (_ & Hc & _).
  destruct (perform env p (csvRow message) w) as [w1 err]; simpl in *.
  destruct (onAppended_keeps env err w1) as (_ & _ & ->). exact Hc.
Qed.

(** One turn of the loop: the body never throws, so the loop goes on with
    the rest of the stream. *)
Lemma forAwait_next env p message rest w :
  forAwait (onMessage env p) (message :: rest) w =
  forAwait (onMessage env p) rest (fst (onMessage env p message w)).
Proof.
  simpl. unfold bind.
  pose proof (onMessage_ok env p message w) as Hok.
  destruct (onMessage env p message w) as [w1 r]; simpl in *. by subst r.
Qed.

Lemma forAwait_ok env p messages w :
  snd (forAwait (onMessage env p) messages w) = Ok tt.
Proof.
  revert w. induction messages as [| message rest IH]; intros w; [reflexivity |].
  rewrite forAwait_next. apply IH.
Qed.

Lemma rowsFor_cons p message rest :
  rowsFor p (message :: rest) = rowsFor p [message] ++ rowsFor p rest.
Proof.
  unfold rowsFor, snapshots. simpl.
  destruct (is_book_snapshot message); reflexivity.
Qed.

Lemma forAwait_requests env p messages w :
  appendRequests (fst (forAwait (onMessage env p) messages w)) =
  appendRequests w ++ rowsFor p messages.
Proof.
  revert w. induction messages as [| message rest IH]; intros w.
  - simpl. by rewrite app_nil_r.
  - rewrite forAwait_next, IH, onMessage_requests.
    rewrite (rowsFor_cons p message rest). by rewrite app_assoc.
Qed.

Lemma forAwait_console env p messages w :
  console (fst (forAwait (onMessage env p) messages w)) = console w.
Proof.
  revert w. induction messages as [| message rest IH]; intros w; [reflexivity |].
  by rewrite forAwait_next, IH, onMessage_console.
Qed.

End Loop.

(** ** Rows *)

Section Rows.
Context {num : Type} `{JsNumber num}.

Lemma cast_or_empty (o : option num) :
  Csv.cast (Js.or (Js.of_optional o) (Js.VString empty)) = shown o.
Proof.
  destruct o as [n |]; [| reflexivity].
  unfold Js.or; simpl. by destruct (num_falsy n).
Qed.

Lemma cast_price (side : list (Tardis.level num)) :
  Csv.cast (Js.or (opt_price (side !! 0%nat)) (Js.VString empty)) = bestPrice side.
Proof. destruct side as [| best rest]; [reflexivity | apply cast_or_empty]. Qed.

Lemma cast_amount (side : list (Tardis.level num)) :
  Csv.cast (Js.or (opt_amount (side !! 0%nat)) (Js.VString empty)) = bestAmount side.
Proof. destruct side as [| best rest]; [reflexivity | apply cast_or_empty]. Qed.

Lemma csvRow_columns (message : Tardis.message num) :
  csvRow message = join "," (map Csv.field (columns message)) +:+ nl.
Proof.
  unfold csvRow, Csv.stringify, Csv.record, extract, cells, columns, join.
  cbn [map String.concat timestamp localTimestamp bid_price_0 bid_amount_0
       ask_price_0 ask_amount_0].
  by rewrite !cast_price, !cast_amount.
Qed.

(** A side without a level, or a level without a price, gives the empty
    string; a truthy number is kept as it is; a falsy number gives the
    empty string as well. *)
Lemma absent_level_is_empty (side : list (Tardis.level num)) :
  side = [] ->
  Js.or (opt_price (side !! 0%nat)) (Js.VString empty) = Js.VString empty /\
  Js.or (opt_amount (side !! 0%nat)) (Js.VString empty) = Js.VString empty.
Proof. by intros ->. Qed.

Lemma truthy_price_is_kept (best : Tardis.level num) (rest : list (Tardis.level num))
    (n : num) :
  Tardis.price best = Some n -> num_falsy n = false ->
  Js.or (opt_price ((best :: rest) !! 0%nat)) (Js.VString empty) = Js.VNumber n.
Proof. intros Hp Hn. simpl. rewrite Hp. unfold Js.or. simpl. by rewrite Hn. Qed.

Lemma falsy_price_is_dropped (best : Tardis.level num) (rest : list (Tardis.level num))
    (n : num) :
  Tardis.price best = Some n -> num_falsy n = true ->
  Js.or (opt_price ((best :: rest) !! 0%nat)) (Js.VString empty) = Js.VString empty.
Proof. intros Hp Hn. simpl. rewrite Hp. unfold Js.or. simpl. by rewrite Hn. Qed.

(** C5: the rows a run asks to append are the rows of the snapshot messages
    of the stream, whatever the clock, the failures of the disk, the state
    of the process and the destination: two runs over the same messages
    produce the same rows, text for text. *)
Theorem same_messages_same_rows
    (env1 env2 : Env) (p1 p2 : list string) (w1 w2 : World)
    (messages : list (Tardis.message num)) :
  newRows w1 (fst (forAwait (onMessage env1 p1) messages w1)) =
    map csvRow (snapshots messages) /\
  newRows w1 (fst (forAwait (onMessage env1 p1) messages w1)) =
    newRows w2 (fst (forAwait (onMessage env2 p2) messages w2)).
Proof.
  assert (Hrows : forall env p w,
    newRows w (fst (forAwait (onMessage env p) messages w)) =
    map csvRow (snapshots messages)).
  { intros env p w. unfold newRows.
    rewrite forAwait_requests, drop_app_length.
    unfold rowsFor. rewrite map_map. reflexivity. }
  split; [apply Hrows |]. by rewrite !Hrows.
Qed.

(** C4: when the append of a snapshot row fails, the error goes to the log
    under the time of the clock, the disk is left as it was, the loop goes on
    with the rest of the stream and ends without an exception, and the row
    was asked for once only: the requests of the whole run are that row and
    then the rows of the later snapshots. *)
Theorem failed_append_is_logged_and_passed_over
    (env : Env) (p : list string) (message : Tardis.message num)
    (rest : list (Tardis.message num)) (w : World) (err : string) :
  is_book_snapshot message = true ->
  appendError env p (csvRow message) w = Some err ->
  let w1 := fst (onMessage env p message w) in
  logFile w1 =
    logFile w ++ ["[" +:+ now env (clockReads w) +:+ "] " +:+
                  ("Error writing to CSV file: " +:+ err) +:+ nl] /\
  disk w1 = disk w /\
  forAwait (onMessage env p) (message :: rest) w =
    forAwait (onMessage env p) rest w1 /\
  snd (forAwait (onMessage env p) (message :: rest) w) = Ok tt /\
  appendRequests (fst (forAwait (onMessage env p) (message :: rest) w)) =
    appendRequests w ++ (p, csvRow message) :: rowsFor p rest.
Proof.
  intros Hsnap Herr. cbv zeta.
  assert (Hstep : logFile (fst (onMessage env p message w)) =
      logFile w ++ ["[" +:+ now env (clockReads w) +:+ "] " +:+
                    ("Error writing to CSV file: " +:+ err) +:+ nl] /\
    disk (fst (onMessage env p message w)) = disk w).
  { unfold onMessage, appendFile. rewrite Hsnap.
    pose proof (perform_failed env p (csvRow message) w err Herr) as Hdisk.
    destruct (perform_quiet env p (csvRow message) w) as (Hlog & _ & Hclock).
    unfold appendError in Herr.
    destruct (perform env p (csvRow message) w) as [w1 e]; simpl in *.
    subst e. simpl. rewrite Hlog, Hclock. by split. }
  destruct Hstep as [Hlog Hdisk].
  repeat split; try assumption.
  - apply forAwait_next.
  - apply forAwait_ok.
  - rewrite forAwait_requests, (rowsFor_cons p message rest).
    unfold rowsFor at 1, snapshots. simpl. by rewrite Hsnap.
Qed.

End Rows.

(** ** The header *)

Lemma append_assoc (a b c : string) : (a +:+ b) +:+ c = a +:+ (b +:+ c).
Proof.
  induction a as [| x a IH]; [reflexivity |].
  change (String x ((a +:+ b) +:+ c) = String x (a +:+ (b +:+ c))).
  by rewrite IH.
Qed.

Lemma append_empty_r (a : string) : a +:+ empty = a.
Proof.
  induction a as [| x a IH]; [reflexivity |].
  change (String x (a +:+ empty) = String x a). by rewrite IH.
Qed.

(** A number in decimal begins with a digit or a sign. *)
Lemma string_of_Z_head (z : Z) :
  exists c rest, string_of_Z z = String c rest /\ Ascii.eqb c "t" = false.
Proof.
  destruct z as [| q | q]; unfold string_of_Z, Z.to_int, NilZero.string_of_int.
  - by eexists _, _.
  - destruct (Pos.to_uint q); simpl; by eexists _, _.
  - by eexists _, _.
Qed.

Lemma field_head (s : string) (c : ascii) (rest : string) :
  s = String c rest -> Ascii.eqb c "t" = false ->
  exists c' rest', Csv.field s = String c' rest' /\ Ascii.eqb c' "t" = false.
Proof.
  intros -> Hc. unfold Csv.field. destruct (Csv.needs_quote _).
  - by eexists _, _.
  - by exists c, rest.
Qed.

Section Header.
Context {num : Type} `{JsNumber num} `{TardisDev num}.

Lemma writeHeaderIfMissing_unfold (p : list string) (w : World) :
  writeHeaderIfMissing p w =
  if Fs.existsSync (disk w) p then (w, Ok tt)
  else match Fs.writeFileSync (disk w) p csvHeader with
       | Ok fs' => (set_disk fs' w, Ok tt)
       | Throw e => (w, Throw e)
       end.
Proof.
  unfold writeHeaderIfMissing, bind, existsSync, sync, ret.
  destruct (Fs.existsSync (disk w) p); reflexivity.
Qed.

Lemma constructs_header (w w' : World) (p : list string) :
  constructs num w p w' -> writeHeaderIfMissing p w = (w', Ok tt).
Proof.
  intros [ex sym file dir start w0 w0' this Hc | dirname ex sym file w0 w0' this Hc];
    unfold Replay.constructor, Live.constructor, bind, ret in Hc.
  - destruct (writeHeaderIfMissing _ w0) as [w1 [[] | e]] eqn:Hw; [| discriminate].
    by injection Hc as -> <-.
  - destruct (writeHeaderIfMissing _ w0) as [w1 [[] | e]] eqn:Hw; [| discriminate].
    by injection Hc as -> <-.
Qed.

Lemma writeFileSync_lookup (fs fs' : Fs.FileSystem) (p : list string) (data : string) :
  Fs.writeFileSync fs p data = Ok fs' ->
  Fs.files fs' !! p = Some data /\ Fs.dirs fs' = Fs.dirs fs.
Proof.
  unfold Fs.writeFileSync, Fs.write.
  destruct (Fs.is_dir fs p); [discriminate |].
  destruct (existsb _ _); [discriminate |].
  destruct (Fs.is_dir fs (Path.dirname p)); [| discriminate].
  intros [= <-]. simpl. split; [apply lookup_insert_eq | reflexivity].
Qed.

Lemma header_exists_after (w w' : World) (p : list string) :
  writeHeaderIfMissing p w = (w', Ok tt) ->
  Fs.existsSync (disk w') p = true.
Proof.
  rewrite writeHeaderIfMissing_unfold.
  destruct (Fs.existsSync (disk w) p) eqn:Hex.
  - by intros [= <-].
  - destruct (Fs.writeFileSync _ _ _) as [fs' | e] eqn:Hwr; [| discriminate].
    intros [= <-]. apply writeFileSync_lookup in Hwr as [Hp _].
    unfold Fs.existsSync, Fs.is_file. simpl. rewrite Hp. apply orb_true_r.
Qed.

(** What one append does to the text of the file. *)
Lemma perform_content (env : Env) (p : list string) (data : string) (w : World) :
  content (fst (perform env p data w)) p = content w p +:+ data \/
  content (fst (perform env p data w)) p = content w p.
Proof.
  unfold perform, content. destruct (fault env _); [by right |]. simpl.
  unfold Fs.append, Fs.write.
  destruct (Fs.is_dir _ p); [by right |].
  destruct (existsb _ _); [by right |].
  destruct (Fs.is_dir _ _); [| by right].
  left. simpl. by rewrite lookup_insert_eq.
Qed.

Lemma onMessage_content (env : Env) (p : list string)
    (message : Tardis.message num) (w : World) :
  exists kept, kept `sublist_of` snapshots [message] /\
    content (fst (onMessage env p message w)) p =
    content w p +:+ join empty (map csvRow kept).
Proof.
  unfold onMessage, appendFile, snapshots. simpl.
  destruct (is_book_snapshot message).
  - destruct (perform_content env p (csvRow message) w) as [Hc | Hc];
      destruct (perform env p (csvRow message) w) as [w1 err]; simpl in *;
      destruct (onAppended_keeps env err w1) as (Hd & _ & _);
      unfold content in *; rewrite Hd, Hc.
    + exists [message]. split; [done |]. simpl. reflexivity.
    + exists []. split; [apply sublist_nil_l |]. simpl. by rewrite append_empty_r.
  - exists []. split; [done |]. simpl. by rewrite append_empty_r.
Qed.

Lemma join_empty_app (a b : list string) :
  join empty (a ++ b) = join empty a +:+ join empty b.
Proof.
  unfold join. induction a as [| x a IH]; [reflexivity |].
  destruct a as [| y a].
  - simpl. destruct b; [by rewrite append_empty_r | reflexivity].
  - change (String.concat empty ((x :: y :: a) ++ b))
      with (x +:+ empty +:+ String.concat empty ((y :: a) ++ b)).
    rewrite IH. simpl. by rewrite append_assoc.
Qed.

Lemma forAwait_content (env : Env) (p : list string)
    (messages : list (Tardis.message num)) (w : World) :
  exists kept, kept `sublist_of` snapshots messages /\
    content (fst (forAwait (onMessage env p) messages w)) p =
    content w p +:+ join empty (map csvRow kept).
Proof.
  revert w. induction messages as [| message rest IH]; intros w.
  - exists []. split; [done |]. simpl. by rewrite append_empty_r.
  - rewrite forAwait_next.
    destruct (onMessage_content env p message w) as (k1 & Hk1 & Hc1).
    destruct (IH (fst (onMessage env p message w))) as (k2 & Hk2 & Hc2).
    exists (k1 ++ k2). split.
    + change (snapshots (message :: rest))
        with (List.filter is_book_snapshot ([message] ++ rest)).
      rewrite List.filter_app. by apply sublist_app.
    + rewrite Hc2, Hc1, map_app, join_empty_app. apply append_assoc.
Qed.

Lemma csvRow_not_header (message : Tardis.message num) :
  csvRow message <> csvHeader.
Proof.
  rewrite csvRow_columns. unfold columns, join. simpl.
  destruct (string_of_Z_head (Tardis.timestamp message)) as (c & rest & Hs & Hc).
  destruct (field_head _ c rest Hs Hc) as (c' & rest' & -> & Hc').
  unfold csvHeader. simpl. intros [= -> _]. discriminate.
Qed.


End Header.

(** ** Starting the savers *)

Section Start.
Context {num : Type} `{JsNumber num} `{TardisDev num}.

(** The saver that [new OrderBookSnapshotSaver(...)] returns is the one
    with the fields of the constructor; its [stream] is [null]. *)
Lemma Replay_constructor_fields exchange symbol file dataDir start_date w w'
    (this : Replay.OrderBookSnapshotSaver num) :
  Replay.constructor exchange symbol file dataDir start_date w = (w', Ok this) ->
  this = Replay.fields exchange symbol file dataDir start_date.
Proof.
  unfold Replay.constructor, bind, ret.
  destruct (writeHeaderIfMissing _ w) as [w1 [[] | e]]; [| discriminate].
  by intros [= _ <-].
Qed.

Lemma Live_constructor_fields dirname exchange symbol file w w'
    (this : Live.OrderBookSnapshotSaver num) :
  Live.constructor dirname exchange symbol file w = (w', Ok this) ->
  this = Live.fields dirname exchange symbol file.
Proof.
  unfold Live.constructor, bind, ret.
  destruct (writeHeaderIfMissing _ w) as [w1 [[] | e]]; [| discriminate].
  by intros [= _ <-].
Qed.

Lemma Replay_start_unfold (env : Env) (this : Replay.OrderBookSnapshotSaver num)
    (w : World) :
  Replay.startSavingSnapshots env this w =
  let this' := fst (Replay.initializeStream this) in
  match replayNormalized (Replay.request this) with
  | None =>
      (fst (logMessage env notInitialized (announced this w)), Ok this')
  | Some messages =>
      (fst (forAwait (onMessage env this.(Replay.filePath))
              (compute messages snapshotOptions) (announced this w)), Ok this')
  end.
Proof.
  unfold Replay.startSavingSnapshots, Replay.initializeStream, announced.
  unfold bind, console_log, ret. simpl. rewrite <- !app_assoc. simpl.
  destruct (replayNormalized (Replay.request this)) as [messages |]; [| reflexivity].
  match goal with |- context [forAwait ?b ?m ?w0] =>
    pose proof (forAwait_ok env this.(Replay.filePath) m w0) as Hok;
    destruct (forAwait b m w0) as [w1 r] end.
  simpl in Hok. by subst r.
Qed.

(** The replay saver starts its loop: the stream is initialized first and
    then consumed, one request for each snapshot message of the computed
    stream. *)
Lemma Replay_start_consumes (env : Env) (this : Replay.OrderBookSnapshotSaver num)
    (w : World) (messages : list (Tardis.message num)) :
  replayNormalized (Replay.request this) = Some messages ->
  newRows w (fst (Replay.startSavingSnapshots env this w)) =
    map csvRow (snapshots (compute messages snapshotOptions)) /\
  (snd (Replay.startSavingSnapshots env this w) =
    Ok (fst (Replay.initializeStream this))) /\
  Replay.stream (fst (Replay.initializeStream this)) = Some messages.
Proof.
  intros Hstream. rewrite Replay_start_unfold, Hstream. cbv zeta.
  cbn [fst snd]. repeat split.
  - unfold newRows. rewrite forAwait_requests.
    change (appendRequests (announced this w)) with (appendRequests w).
    rewrite drop_app_length. unfold rowsFor. by rewrite map_map.
  - unfold Replay.initializeStream. simpl. exact Hstream.
Qed.

(** It returns early, with the diagnostic in the log, when
    [replayNormalized] hands back nothing. *)
Lemma Replay_start_early (env : Env) (this : Replay.OrderBookSnapshotSaver num)
    (w : World) :
  replayNormalized (Replay.request this) = None ->
  Replay.startSavingSnapshots env this w =
    (mkWorld (disk w)
       (logFile w ++ ["[" +:+ now env (clockReads w) +:+ "] " +:+ notInitialized +:+ nl])
       (console (announced this w)) (S (clockReads w)) (appendRequests w),
     Ok (fst (Replay.initializeStream this))).
Proof. intros Hstream. by rewrite Replay_start_unfold, Hstream. Qed.

(** C2, for the live saver: [startSavingSnapshots] on a saver as the
    constructor leaves it tests [this.stream], which is still [null], before
    [initializeStream] is called.  Whatever [streamNormalized] would deliver,
    the call writes the diagnostic to the log and returns: no stream is
    initialized, no append is asked for, the disk is untouched. *)
Theorem live_fresh_saver_only_logs
    (dirname : list string) (env : Env) (exchange symbol : string)
    (file : list string) (w : World) :
  let this := Live.fields (num := num) dirname exchange symbol file in
  Live.startSavingSnapshots env this w =
    (mkWorld (disk w)
       (logFile w ++ ["[" +:+ now env (clockReads w) +:+ "] " +:+ notInitialized +:+ nl])
       (console w) (S (clockReads w)) (appendRequests w),
     Ok this) /\
  this.(Live.stream) = None /\
  newRows w (fst (Live.startSavingSnapshots env this w)) = [].
Proof.
  cbv zeta. repeat split.
  unfold newRows, Live.startSavingSnapshots. simpl. by rewrite drop_all.
Qed.

(** The live script from top to bottom asks for no append, on any disk
    and whatever the stream holds. *)
Lemma live_script_never_appends (dirname : list string) (env : Env) (w : World) :
  appendRequests (fst (Live.main (num := num) dirname env w)) = appendRequests w.
Proof.
  unfold Live.main, Live.ensureDataDir, Live.constructor, bind, existsSync, sync, ret.
  destruct (negb (Fs.existsSync (disk w) (Live.dataDir dirname)));
    [destruct (Fs.mkdirSync _ _) as [fs1 | e]; [| reflexivity] |];
    match goal with |- context [writeHeaderIfMissing ?q ?w0] =>
      rewrite (writeHeaderIfMissing_unfold q w0);
      destruct (Fs.existsSync (disk w0) q);
        [| destruct (Fs.writeFileSync (disk w0) q csvHeader); [| reflexivity]]
    end; reflexivity.
Qed.

(** Two runs of the replay saver from the same saver ask for the same
    rows. *)
Lemma replay_runs_agree (env1 env2 : Env) (this : Replay.OrderBookSnapshotSaver num)
    (w1 w2 : World) :
  newRows w1 (fst (Replay.startSavingSnapshots env1 this w1)) =
  newRows w2 (fst (Replay.startSavingSnapshots env2 this w2)).
Proof.
  destruct (replayNormalized (Replay.request this)) as [messages |] eqn:Hstream.
  - destruct (Replay_start_consumes env1 this w1 messages Hstream) as [-> _].
    by destruct (Replay_start_consumes env2 this w2 messages Hstream) as [-> _].
  - rewrite !Replay_start_early by assumption.
    unfold newRows. simpl. by rewrite !drop_all.
Qed.

(** Once [initializeStream] has been called from outside, the live loop
    does run, over a second subscription. *)
Lemma Live_start_after_initialize (dirname : list string) (env : Env)
    (this : Live.OrderBookSnapshotSaver num) (w : World)
    (messages : list (Tardis.message num)) :
  streamNormalized (Live.request this) = Some messages ->
  let this' := fst (Live.initializeStream this) in
  Live.request this' = Live.request this /\
  newRows w (fst (Live.startSavingSnapshots env this' w)) =
    map csvRow (snapshots (compute messages snapshotOptions)).
Proof.
  intros Hstream. cbv zeta. split; [reflexivity |].
  unfold Live.startSavingSnapshots, Live.initializeStream.
  cbn [fst Live.stream]. rewrite Hstream.
  change (Live.request (Live.mkSaver _ _ _ (Some messages)))
    with (Live.request this).
  rewrite Hstream. cbn [option_map Live.filePath].
  unfold bind, ret.
  match goal with |- context [forAwait ?b ?m ?w0] =>
    pose proof (forAwait_ok env this.(Live.filePath) m w0) as Hok;
    pose proof (forAwait_requests env this.(Live.filePath) m w0) as Hreq;
    destruct (forAwait b m w0) as [w1 r] end.
  simpl in *. subst r. simpl. unfold newRows. rewrite Hreq, drop_app_length.
  unfold rowsFor. by rewrite map_map.
Qed.

End Start.

(** ** The range of the replay *)

Section Range.
Context {num : Type} {JN : JsNumber num} {TD : TardisDev num}.

(** A saver fresh from the constructor runs from the [start_date] it was
    given to the end date the constructor sets. *)
Lemma constructed_range (exchange symbol : string) (file dataDir : list string)
    (start_date : string) :
  let this := Replay.fields (num := num) exchange symbol file dataDir start_date in
  this.(Replay.start_date) = start_date /\ this.(Replay.to_date) = "2019-11-18".
Proof. by split. Qed.


End Range.

(** C3, at a snapshot whose best bid is 5 at the price 0: the bid is
    present, and the row has an empty [bid_price_0], the same row as for a
    bid without a price. *)
Theorem zero_price_is_written_as_absent :
  csvRow (Sample.snapshot 60000 [Sample.lvl 0 5] [Sample.lvl 101 3]) =
    "60000,60005,,5,101,3" +:+ nl /\
  csvRow (Sample.snapshot 60000 [Sample.lvl 0 5] [Sample.lvl 101 3]) =
    csvRow (Sample.snapshot 60000 [Tardis.mkLevel None (Some 5%Z)] [Sample.lvl 101 3]).
Proof. split; reflexivity. Qed.

(** Off the falsy numbers the row is the row the specification words:
    when no number at the best bid and the best ask is falsy, the columns are
    populated from the message as claimed. *)
Lemma row_is_as_claimed_off_zero {num : Type} {JN : JsNumber num}
    (message : Tardis.message num) :
  truthyBest (Tardis.bids message) = true ->
  truthyBest (Tardis.asks message) = true ->
  csvRow message = claimedRow message.
Proof.
  assert (Hshown : forall o : option num, truthyField o = true -> shown o = populated o).
  { intros [n |]; [| done]. simpl. by intros ->%negb_true_iff. }
  assert (Hside : forall side : list (Tardis.level num),
            truthyBest side = true ->
            bestPrice side = bestOf Tardis.price side /\
            bestAmount side = bestOf Tardis.amount side).
  { intros [| best rest]; [done |]. simpl.
    intros [Hp Ha]%andb_true_iff. by rewrite !Hshown. }
  intros [Hbp Hba]%Hside [Hap Haa]%Hside.
  rewrite csvRow_columns. unfold claimedRow, columns, claimedColumns.
  by rewrite Hbp, Hba, Hap, Haa.
Qed.

(** C8, at a snapshot whose best ask is 3 at the price 0: the message is
    of type [book_snapshot] and its best ask is present, the row populated
    from the message has 0 in the column [ask_price_0], and the row written
    has that column empty. *)
Theorem zero_ask_price_leaves_its_column_empty :
  let message := Sample.snapshot 60000 [Sample.lvl 100 5] [Sample.lvl 0 3] in
  Tardis.type message = "book_snapshot" /\
  Tardis.asks message !! 0%nat = Some (Sample.lvl 0 3) /\
  claimedRow message = "60000,60005,100,5,0,3" +:+ nl /\
  csvRow message = "60000,60005,100,5,,3" +:+ nl /\
  csvRow message <> claimedRow message.
Proof.
  cbv zeta. repeat split. intros Hrow.
  apply (f_equal String.length) in Hrow. vm_compute in Hrow. discriminate.
Qed.

(** ** The token lists *)

Section Lists.
Context `{TardisApi}.

Lemma csvContent_lines (details : Tardis.exchangeDetails) :
  TokenList.csvContent details =
  "id,type,availableSince" +:+ nl +:+
  join nl (map lineOf (Tardis.availableSymbols details)).
Proof.
  unfold TokenList.csvContent, TokenList.csvHeader.
  rewrite map_map, append_assoc. reflexivity.
Qed.

Lemma body_unfold (dirname : list string) (s : TokenList.script) (w : World) :
  TokenList.body dirname s w =
  match getExchangeDetails s.(TokenList.exchangeName) with
  | Throw e => (w, Throw e)
  | Ok details =>
      let made :=
        if Fs.existsSync (disk w) (TokenList.outputDir dirname s) then Ok (disk w)
        else Fs.mkdirSync (disk w) (TokenList.outputDir dirname s) in
      match made with
      | Throw e => (w, Throw e)
      | Ok fs1 =>
          match Fs.writeFileSync fs1 (TokenList.filePath dirname s)
                  (TokenList.csvContent details) with
          | Throw e => (set_disk fs1 w, Throw e)
          | Ok fs2 =>
              (mkWorld fs2 (logFile w)
                 (console w ++ ["CSV file written successfully to " +:+
                                TokenList.show (TokenList.filePath dirname s)])
                 (clockReads w) (appendRequests w), Ok tt)
          end
      end
  end.
Proof.
  unfold TokenList.body, TokenList.await, bind, existsSync, sync, ret, console_log.
  destruct (getExchangeDetails _) as [details | e]; [| reflexivity].
  destruct (Fs.existsSync (disk w) _); simpl.
  - destruct w as [fs lg cs ck rq]; simpl.
    destruct (Fs.writeFileSync _ _ _); reflexivity.
  - destruct (Fs.mkdirSync _ _) as [fs1 | e]; [| reflexivity]. simpl.
    destruct (Fs.writeFileSync _ _ _); reflexivity.
Qed.

(** C9: when the block under [try] runs to its end, the function returns
    normally and the file at the output path is the header line
    [id,type,availableSince] followed by the lines of the available symbols,
    one for each symbol and in the order of the answer, each line the
    symbol's [id], [type] and [availableSince] with commas between. *)
Theorem token_list_file_lists_every_symbol
    (dirname : list string) (s : TokenList.script) (w w' : World) :
  TokenList.body dirname s w = (w', Ok tt) ->
  TokenList.checkSymbolAvailability dirname s w = (w', Ok tt) /\
  exists details,
    getExchangeDetails s.(TokenList.exchangeName) = Ok details /\
    Fs.files (disk w') !! TokenList.filePath dirname s =
      Some ("id,type,availableSince" +:+ nl +:+
            join nl (map lineOf (Tardis.availableSymbols details))) /\
    length (map lineOf (Tardis.availableSymbols details)) =
      length (Tardis.availableSymbols details) /\
    forall i symbol,
      Tardis.availableSymbols details !! i = Some symbol ->
      map lineOf (Tardis.availableSymbols details) !! i =
        Some (Tardis.id symbol +:+ "," +:+ Tardis.symbol_type symbol +:+ "," +:+
              Tardis.availableSince symbol).
Proof.
  intros Hbody. split.
  { unfold TokenList.checkSymbolAvailability, try_catch. by rewrite Hbody. }
  rewrite body_unfold in Hbody.
  destruct (getExchangeDetails _) as [details | e]; [| discriminate].
  exists details. split; [reflexivity |]. cbv zeta in Hbody.
  destruct (if Fs.existsSync _ _ then _ else _) as [fs1 | e]; [| discriminate].
  destruct (Fs.writeFileSync _ _ _) as [fs2 | e] eqn:Hwr; [| discriminate].
  injection Hbody as <-. simpl.
  apply writeFileSync_lookup in Hwr as [Hp _].
  rewrite Hp, csvContent_lines. repeat split.
  - by rewrite length_map.
  - intros i symbol Hi. by rewrite list_lookup_fmap, Hi.
Qed.

(** C10: when [getExchangeDetails] fails, the error is printed on the
    console, nothing else changes (the disk is the same, no directory and no
    file is made) and the function returns normally. *)
Theorem failed_fetch_is_reported_and_changes_nothing
    (dirname : list string) (s : TokenList.script) (w : World) (error : string) :
  getExchangeDetails s.(TokenList.exchangeName) = Throw error ->
  TokenList.checkSymbolAvailability dirname s w =
    (mkWorld (disk w) (logFile w)
       (console w ++ ["Error fetching Binance exchange details: " +:+ error])
       (clockReads w) (appendRequests w),
     Ok tt).
Proof.
  intros Hfetch. unfold TokenList.checkSymbolAvailability, try_catch.
  rewrite body_unfold, Hfetch. reflexivity.
Qed.

End Lists.

(** ** Paths and the disk *)

Lemma step_plain (acc : list string) (seg : string) :
  plain seg = true -> Path.step acc seg = acc ++ [seg].
Proof.
  unfold plain, Path.step.
  destruct (String.eqb seg ".."); [discriminate |].
  destruct (String.eqb seg "."); [discriminate |].
  by destruct (String.eqb seg empty).
Qed.

Lemma forallb_removelast {A} (f : A -> bool) (l : list A) :
  forallb f l = true -> forallb f (removelast l) = true.
Proof.
  induction l as [| x l IH]; [done |]. simpl.
  intros [Hx Hl]%andb_true_iff. destruct l as [| y l]; [done |].
  change (f x && forallb f (removelast (y :: l)) = true).
  by rewrite Hx, IH.
Qed.

Lemma step_clean (acc : list string) (seg : string) :
  forallb plain acc = true -> forallb plain (Path.step acc seg) = true.
Proof.
  intros Hacc. unfold Path.step.
  destruct (String.eqb seg "..") eqn:Hup; [by apply forallb_removelast |].
  destruct (String.eqb seg ".") eqn:Hdot; [done |].
  destruct (String.eqb seg empty) eqn:Hempty; [done |]. simpl.
  rewrite forallb_app, Hacc. simpl. unfold plain.
  by rewrite Hup, Hdot, Hempty.
Qed.

Lemma fold_step_clean (segs acc : list string) :
  forallb plain acc = true -> forallb plain (fold_left Path.step segs acc) = true.
Proof.
  revert acc. induction segs as [| seg segs IH]; intros acc Hacc; [done |].
  simpl. by apply IH, step_clean.
Qed.

(** What [path.join] returns has no [.], [..] or empty segment left. *)
Lemma join_clean (a b : list string) : forallb plain (Path.join a b) = true.
Proof. by apply fold_step_clean. Qed.

Lemma fold_step_plain (segs acc : list string) :
  forallb plain segs = true -> fold_left Path.step segs acc = acc ++ segs.
Proof.
  revert acc. induction segs as [| seg segs IH]; intros acc; simpl.
  - by rewrite app_nil_r.
  - intros [Hseg Hsegs]%andb_true_iff.
    rewrite step_plain, IH, <- app_assoc by assumption. reflexivity.
Qed.

(** Joining a file name to a directory that is already resolved. *)
Lemma join_file (a : list string) (name : string) :
  forallb plain a = true -> plain name = true ->
  Path.join a [name] = a ++ [name] /\ Path.dirname (Path.join a [name]) = a.
Proof.
  intros Ha Hname.
  assert (Hjoin : Path.join a [name] = a ++ [name]).
  { unfold Path.join. rewrite fold_step_plain; [done |].
    rewrite forallb_app, Ha. simpl. by rewrite Hname. }
  split; [exact Hjoin |]. unfold Path.dirname. rewrite Hjoin.
  apply removelast_last.
Qed.

Lemma self_prefix (q : list string) : q <> [] -> q ∈ Path.prefixes q.
Proof.
  intros Hq. unfold Path.prefixes. apply list_elem_of_fmap.
  exists (length q). split; [by rewrite firstn_all |].
  apply list_elem_of_In, in_seq. destruct q; [done | simpl; lia].
Qed.

Lemma prefix_length (q r : list string) :
  r ∈ Path.prefixes q -> length r <= length q.
Proof.
  unfold Path.prefixes. intros (n & -> & _)%list_elem_of_fmap.
  rewrite length_firstn. lia.
Qed.

Lemma is_dir_true (fs : Fs.FileSystem) (q : list string) :
  Fs.is_dir fs q = true <-> q = [] \/ q ∈ Fs.dirs fs.
Proof.
  unfold Fs.is_dir. by rewrite orb_true_iff, !bool_decide_eq_true.
Qed.

Lemma is_dir_false (fs : Fs.FileSystem) (q : list string) :
  Fs.is_dir fs q = false <-> q <> [] /\ q ∉ Fs.dirs fs.
Proof.
  unfold Fs.is_dir. by rewrite orb_false_iff, !bool_decide_eq_false.
Qed.

Lemma existsSync_false (fs : Fs.FileSystem) (q : list string) :
  Fs.existsSync fs q = false <-> Fs.is_dir fs q = false /\ Fs.is_file fs q = false.
Proof. unfold Fs.existsSync. apply orb_false_iff. Qed.

Lemma existsb_false {A} (f : A -> bool) (l : list A) (x : A) :
  existsb f l = false -> x ∈ l -> f x = false.
Proof.
  intros Hnone Hx. destruct (f x) eqn:Hfx; [| done].
  assert (existsb f l = true) as Hsome; [| congruence].
  apply existsb_exists. exists x. split; [by apply list_elem_of_In | done].
Qed.

(** [mkdirSync] with [recursive] succeeds when no component is a regular
    file; the directory is there afterwards, the files are the same, and a
    path longer than the directory is a directory only if it was one. *)
Lemma mkdirSync_makes (fs : Fs.FileSystem) (q : list string) :
  existsb (Fs.is_file fs) (Path.prefixes q) = false ->
  exists fs', Fs.mkdirSync fs q = Ok fs' /\
    Fs.is_dir fs' q = true /\ Fs.files fs' = Fs.files fs /\
    forall r, length q < length r -> Fs.is_dir fs' r = Fs.is_dir fs r.
Proof.
  intros Hfree. unfold Fs.mkdirSync. rewrite Hfree. eexists. split; [done |].
  repeat split.
  - apply is_dir_true. destruct q as [| seg q]; [by left | right].
    cbn [Fs.dirs]. apply elem_of_union_r, elem_of_list_to_set.
    by apply self_prefix.
  - intros r Hlen. unfold Fs.is_dir. cbn [Fs.dirs]. f_equal.
    apply bool_decide_ext. rewrite elem_of_union, elem_of_list_to_set.
    split; [| by left]. intros [Hr | Hr]; [done |].
    apply prefix_length in Hr. lia.
Qed.

Lemma write_lands (f : option string -> string) (fs : Fs.FileSystem)
    (q : list string) :
  Fs.is_dir fs q = false ->
  existsb (Fs.is_file fs) (Path.prefixes (Path.dirname q)) = false ->
  Fs.is_dir fs (Path.dirname q) = true ->
  Fs.write f fs q = Ok (Fs.mkFs (Fs.dirs fs) (<[q := f (Fs.files fs !! q)]> (Fs.files fs))).
Proof. intros Hfile Hfree Hdir. unfold Fs.write. by rewrite Hfile, Hfree, Hdir. Qed.

Lemma existsb_agree {A} (f g : A -> bool) (l : list A) :
  (forall x, x ∈ l -> f x = g x) -> existsb f l = existsb g l.
Proof.
  induction l as [| x l IH]; intros Hfg; [done |]. simpl.
  rewrite (Hfg x), IH; [done | | by left].
  intros y Hy. apply Hfg. by right.
Qed.

(** Writing the file at [q] does not make a regular file of a component
    of its directory. *)
Lemma block_after_write (fs : Fs.FileSystem) (q : list string) (data : string) :
  q <> [] ->
  existsb (Fs.is_file (Fs.mkFs (Fs.dirs fs) (<[q := data]> (Fs.files fs))))
    (Path.prefixes (Path.dirname q)) =
  existsb (Fs.is_file fs) (Path.prefixes (Path.dirname q)).
Proof.
  intros Hq. apply existsb_agree. intros r Hr%prefix_length.
  unfold Fs.is_file. cbn [Fs.files]. rewrite lookup_insert_ne; [done |].
  intros <-. unfold Path.dirname in Hr.
  rewrite removelast_firstn_len, length_firstn in Hr.
  destruct q; [done | simpl in Hr; lia].
Qed.

Lemma same_files_same_block (fs1 fs2 : Fs.FileSystem) (qs : list (list string)) :
  Fs.files fs1 = Fs.files fs2 ->
  existsb (Fs.is_file fs1) qs = existsb (Fs.is_file fs2) qs.
Proof.
  intros Hfiles. induction qs as [| q qs IH]; [done |]. simpl.
  unfold Fs.is_file at 1 3. by rewrite Hfiles, IH.
Qed.

(** ** More on the loop *)

Section LoopMore.
Context {num : Type} `{JsNumber num}.

Lemma onMessage_other (env : Env) (p : list string)
    (message : Tardis.message num) (w : World) :
  is_book_snapshot message = false -> onMessage env p message w = (w, Ok tt).
Proof. intros Hother. unfold onMessage. by rewrite Hother. Qed.

(** X1: the messages that are not snapshots leave no trace: the run over
    a stream is the run over its snapshot messages. *)
Theorem loop_runs_on_snapshots_only (env : Env) (p : list string)
    (messages : list (Tardis.message num)) (w : World) :
  forAwait (onMessage env p) messages w =
  forAwait (onMessage env p) (snapshots messages) w.
Proof.
  revert w. induction messages as [| message rest IH]; intros w; [reflexivity |].
  rewrite forAwait_next. unfold snapshots. simpl.
  destruct (is_book_snapshot message) eqn:Hsnap.
  - fold (snapshots rest). by rewrite forAwait_next, IH.
  - fold (snapshots rest). rewrite (onMessage_other env p message w Hsnap). apply IH.
Qed.

Lemma onMessage_log (env : Env) (p : list string)
    (message : Tardis.message num) (w : World) :
  is_book_snapshot message = true ->
  logFile (fst (onMessage env p message w)) =
    logFile w ++ [logLine env (clockReads w)
                    (outcomeText (appendError env p (csvRow message) w))] /\
  clockReads (fst (onMessage env p message w)) = S (clockReads w).
Proof.
  intros Hsnap. unfold onMessage, appendFile, appendError. rewrite Hsnap.
  destruct (perform_quiet env p (csvRow message) w) as (Hlog & _ & Hclock).
  destruct (perform env p (csvRow message) w) as [w1 err]; simpl in *.
  destruct err as [err |]; simpl; rewrite Hlog, Hclock; by split.
Qed.

(** X2: every append is answered in the log.  A run adds to the log
    one line for each snapshot message of the stream and no other, each the
    success line or an error line under a reading of the clock; the lines that
    were in the log stay. *)
Theorem every_append_is_answered_in_the_log (env : Env) (p : list string)
    (messages : list (Tardis.message num)) (w : World) :
  exists lines,
    logFile (fst (forAwait (onMessage env p) messages w)) = logFile w ++ lines /\
    length lines = length (snapshots messages) /\
    Forall (fun line => exists k err, line = logLine env k (outcomeText err)) lines.
Proof.
  revert w. induction messages as [| message rest IH]; intros w.
  - exists []. simpl. by rewrite app_nil_r.
  - rewrite forAwait_next. unfold snapshots. simpl.
    destruct (is_book_snapshot message) eqn:Hsnap; fold (snapshots rest).
    + destruct (onMessage_log env p message w Hsnap) as [Hlog _].
      destruct (IH (fst (onMessage env p message w))) as (lines & Hlogs & Hlen & Hall).
      eexists (_ :: lines). rewrite Hlogs, Hlog, <- app_assoc. simpl.
      repeat split; [by rewrite Hlen |].
      apply Forall_cons. split; [by eexists _, _ | exact Hall].
    + rewrite (onMessage_other env p message w Hsnap). apply IH.
Qed.

Lemma perform_frame (env : Env) (p : list string) (data : string) (w : World) :
  Fs.dirs (disk (fst (perform env p data w))) = Fs.dirs (disk w) /\
  delete p (Fs.files (disk (fst (perform env p data w)))) =
    delete p (Fs.files (disk w)).
Proof.
  unfold perform. destruct (fault env _); [by split |]. simpl.
  unfold Fs.append, Fs.write.
  destruct (Fs.is_dir _ p); [by split |].
  destruct (existsb _ _); [by split |].
  destruct (Fs.is_dir _ _); [| by split].
  simpl. split; [reflexivity | apply delete_insert_eq].
Qed.

Lemma onMessage_frame (env : Env) (p : list string)
    (message : Tardis.message num) (w : World) :
  Fs.dirs (disk (fst (onMessage env p message w))) = Fs.dirs (disk w) /\
  delete p (Fs.files (disk (fst (onMessage env p message w)))) =
    delete p (Fs.files (disk w)).
Proof.
  unfold onMessage, appendFile.
  destruct (is_book_snapshot message); [| by split].
  pose proof (perform_frame env p (csvRow message) w) as Hframe.
  destruct (perform env p (csvRow message) w) as [w1 err]; simpl in *.
  destruct (onAppended_keeps env err w1) as (-> & _ & _). exact Hframe.
Qed.

Lemma onMessage_log_grows (env : Env) (p : list string)
    (message : Tardis.message num) (w : World) :
  exists lines, logFile (fst (onMessage env p message w)) = logFile w ++ lines.
Proof.
  destruct (is_book_snapshot message) eqn:Hsnap.
  - destruct (onMessage_log env p message w Hsnap) as [-> _]. by eexists.
  - rewrite (onMessage_other env p message w Hsnap). exists []. simpl.
    by rewrite app_nil_r.
Qed.

(** X3: apart from its log the loop writes to the saver's own file only.
    It makes and removes no directory, every file of the disk other than the
    CSV file is what it was, the console is untouched, and the log, which the
    savers keep in a file of their own beside the script, is added to and not
    rewritten. *)
Theorem loop_touches_only_its_file_and_the_log (env : Env) (p : list string)
    (messages : list (Tardis.message num)) (w : World) :
  let w' := fst (forAwait (onMessage env p) messages w) in
  Fs.dirs (disk w') = Fs.dirs (disk w) /\
  delete p (Fs.files (disk w')) = delete p (Fs.files (disk w)) /\
  console w' = console w /\
  exists lines, logFile w' = logFile w ++ lines.
Proof.
  cbv zeta. revert w. induction messages as [| message rest IH]; intros w.
  - repeat split. exists []. simpl. by rewrite app_nil_r.
  - rewrite forAwait_next.
    destruct (IH (fst (onMessage env p message w))) as (-> & -> & -> & lines & ->).
    destruct (onMessage_frame env p message w) as [-> ->].
    rewrite onMessage_console.
    destruct (onMessage_log_grows env p message w) as (line & ->).
    repeat split. exists (line ++ lines). by rewrite app_assoc.
Qed.

Lemma is_dir_dirs (fs1 fs2 : Fs.FileSystem) (q : list string) :
  Fs.dirs fs1 = Fs.dirs fs2 -> Fs.is_dir fs1 q = Fs.is_dir fs2 q.
Proof. unfold Fs.is_dir. by intros ->. Qed.

End LoopMore.

(** ** More on the savers *)

Section SaversMore.
Context {num : Type} `{JsNumber num} `{TardisDev num}.

(** X6: the replay constructor does not make its data directory.  When
    nothing exists at the path of the file and the directory of the path is
    not there, the construction throws and the process is as before: with
    [ENOTDIR] when a component of the directory is a regular file, with
    [ENOENT] when the directory is missing. *)
Theorem replay_constructor_needs_its_directory
    (exchange symbol : string) (file dataDir : list string) (start_date : string)
    (w : World) :
  Fs.existsSync (disk w) (Path.join dataDir file) = false ->
  Fs.is_dir (disk w) (Path.dirname (Path.join dataDir file)) = false ->
  Replay.constructor (num := num) exchange symbol file dataDir start_date w =
    (w, Throw (if existsb (Fs.is_file (disk w))
                    (Path.prefixes (Path.dirname (Path.join dataDir file)))
               then "ENOTDIR" else "ENOENT")).
Proof.
  intros Hnew Hdir. unfold Replay.constructor, bind.
  rewrite writeHeaderIfMissing_unfold. cbn [Replay.filePath Replay.fields].
  rewrite Hnew. apply existsSync_false in Hnew as [Hfile _].
  unfold Fs.writeFileSync, Fs.write. rewrite Hfile, Hdir.
  by destruct (existsb _ _).
Qed.


(** X9: the live script on a new disk.  When the data directory does not
    exist, none of its ancestors is a regular file and nothing exists at the
    path of the CSV file, the script makes the directory, creates the file
    with the header line, writes the diagnostic to the log and returns; the
    files of the disk are the old ones and the new file. *)
Theorem live_script_on_a_new_disk (dirname : list string) (env : Env) (w : World) :
  Fs.existsSync (disk w) (Live.dataDir dirname) = false ->
  existsb (Fs.is_file (disk w)) (Path.prefixes (Live.dataDir dirname)) = false ->
  Fs.existsSync (disk w) (Live.dataDir dirname ++ ["orderbook_snapshot_data.csv"])
    = false ->
  let w' := fst (Live.main (num := num) dirname env w) in
  snd (Live.main (num := num) dirname env w) =
    Ok (Live.fields dirname "bitmex" "XBTUSD" ["orderbook_snapshot_data.csv"]) /\
  Live.filePath (Live.fields (num := num) dirname "bitmex" "XBTUSD"
                   ["orderbook_snapshot_data.csv"]) =
    Live.dataDir dirname ++ ["orderbook_snapshot_data.csv"] /\
  Fs.is_dir (disk w') (Live.dataDir dirname) = true /\
  Fs.files (disk w') =
    <[Live.dataDir dirname ++ ["orderbook_snapshot_data.csv"] := csvHeader]>
      (Fs.files (disk w)) /\
  logFile w' = logFile w ++ [logLine env (clockReads w) notInitialized] /\
  appendRequests w' = appendRequests w.
Proof.
  intros Hnodir Hfree Hnofile. cbv zeta.
  destruct (join_file (Live.dataDir dirname) "orderbook_snapshot_data.csv")
    as [Hpath Hparent]; [apply join_clean | done |].
  destruct (mkdirSync_makes (disk w) (Live.dataDir dirname) Hfree)
    as (fs1 & Hmk & Hdir1 & Hfiles1 & Hlonger).
  apply existsSync_false in Hnofile as [Hcsvdir Hcsvfile].
  assert (Hcsvdir1 : Fs.is_dir fs1
            (Live.dataDir dirname ++ ["orderbook_snapshot_data.csv"]) = false).
  { rewrite Hlonger; [done |]. rewrite length_app. simpl. lia. }
  assert (Hnew1 : Fs.existsSync fs1
            (Live.dataDir dirname ++ ["orderbook_snapshot_data.csv"]) = false).
  { apply existsSync_false. split; [done |]. unfold Fs.is_file in *.
    by rewrite Hfiles1. }
  unfold Live.main, Live.ensureDataDir, Live.constructor, bind, existsSync, sync, ret.
  rewrite Hnodir. cbn [negb]. rewrite Hmk. cbn [disk set_disk].
  rewrite writeHeaderIfMissing_unfold. cbn [Live.filePath Live.fields disk set_disk].
  rewrite Hpath, Hnew1. unfold Fs.writeFileSync.
  rewrite (write_lands _ fs1 _ Hcsvdir1).
  2: { rewrite <- Hpath, Hparent.
       by rewrite (same_files_same_block fs1 (disk w) _ Hfiles1). }
  2: { by rewrite <- Hpath, Hparent. }
  cbn [Live.startSavingSnapshots Live.fields Live.stream fst snd].
  unfold logMessage, set_disk, logLine. simpl.
  repeat split; try done. by rewrite Hfiles1.
Qed.

End SaversMore.

(** ** More on the token lists *)

Section ListsMore.
Context `{TardisApi}.

(** X10: on a disk that allows it the script succeeds.  When the exchange
    answers, no component of the output directory is a regular file and the
    path of the CSV file is not a directory, the run makes the directory if
    it is missing, writes the file with the content of the answer (replacing
    an older file), prints the success line and returns; no other file
    changes. *)
Theorem token_list_succeeds_on_a_writable_disk
    (dirname : list string) (s : TokenList.script) (w : World)
    (details : Tardis.exchangeDetails) :
  getExchangeDetails s.(TokenList.exchangeName) = Ok details ->
  plain s.(TokenList.fileName) = true ->
  existsb (Fs.is_file (disk w)) (Path.prefixes (TokenList.outputDir dirname s))
    = false ->
  Fs.is_dir (disk w) (TokenList.filePath dirname s) = false ->
  let w' := fst (TokenList.checkSymbolAvailability dirname s w) in
  snd (TokenList.checkSymbolAvailability dirname s w) = Ok tt /\
  Fs.files (disk w') =
    <[TokenList.filePath dirname s := TokenList.csvContent details]>
      (Fs.files (disk w)) /\
  Fs.is_dir (disk w') (TokenList.outputDir dirname s) = true /\
  console w' =
    console w ++ ["CSV file written successfully to " +:+
                  TokenList.show (TokenList.filePath dirname s)].
Proof.
  intros Hfetch Hname Hfree Hnotdir. cbv zeta.
  destruct (join_file (TokenList.outputDir dirname s) s.(TokenList.fileName))
    as [Hpath Hparent]; [apply join_clean | done |].
  fold (TokenList.filePath dirname s) in Hpath, Hparent.
  assert (Hmade : exists fs1,
    (if Fs.existsSync (disk w) (TokenList.outputDir dirname s) then Ok (disk w)
     else Fs.mkdirSync (disk w) (TokenList.outputDir dirname s)) = Ok fs1 /\
    Fs.is_dir fs1 (TokenList.outputDir dirname s) = true /\
    Fs.files fs1 = Fs.files (disk w) /\
    Fs.is_dir fs1 (TokenList.filePath dirname s) = false).
  { destruct (Fs.is_dir (disk w) (TokenList.outputDir dirname s)) eqn:Hdir.
    - exists (disk w). unfold Fs.existsSync. by rewrite Hdir.
    - apply is_dir_false in Hdir as Hdir'. destruct Hdir' as [Hne _].
      assert (Fs.is_file (disk w) (TokenList.outputDir dirname s) = false) as Hfile.
      { apply (existsb_false _ _ _ Hfree). by apply self_prefix. }
      unfold Fs.existsSync. rewrite Hdir, Hfile. simpl.
      destruct (mkdirSync_makes (disk w) _ Hfree) as (fs1 & Hmk & Hd & Hf & Hlonger).
      exists fs1. repeat split; try done.
      rewrite Hlonger; [done |]. rewrite Hpath, length_app. simpl. lia. }
  destruct Hmade as (fs1 & Hmade & Hdir1 & Hfiles1 & Hnotdir1).
  unfold TokenList.checkSymbolAvailability, try_catch.
  rewrite body_unfold, Hfetch. cbv zeta. rewrite Hmade.
  unfold Fs.writeFileSync.
  rewrite (write_lands _ fs1 _ Hnotdir1).
  2: { rewrite Hparent.
       by rewrite (same_files_same_block fs1 (disk w) _ Hfiles1). }
  2: { by rewrite Hparent. }
  simpl. repeat split; try done. by rewrite Hfiles1.
Qed.

(** X11: running the script again changes nothing on the disk: after a
    run that wrote the file, a second run with the same answer returns
    normally, leaves the disk exactly as the first run left it and prints
    the success line once more. *)
Theorem token_list_rerun_keeps_the_disk
    (dirname : list string) (s : TokenList.script) (w w1 : World) :
  TokenList.body dirname s w = (w1, Ok tt) ->
  let w2 := fst (TokenList.checkSymbolAvailability dirname s w1) in
  snd (TokenList.checkSymbolAvailability dirname s w1) = Ok tt /\
  disk w2 = disk w1 /\
  console w2 =
    console w1 ++ ["CSV file written successfully to " +:+
                   TokenList.show (TokenList.filePath dirname s)].
Proof.
  intros Hbody. cbv zeta. rewrite body_unfold in Hbody.
  unfold TokenList.checkSymbolAvailability, try_catch. rewrite body_unfold.
  destruct (getExchangeDetails _) as [details | e]; [| discriminate].
  cbv zeta in *.
  set (out := TokenList.outputDir dirname s) in *.
  set (path := TokenList.filePath dirname s) in *.
  destruct (if Fs.existsSync (disk w) out then Ok (disk w)
            else Fs.mkdirSync (disk w) out) as [fs1 | e] eqn:Hmade; [| discriminate].
  assert (Hout : Fs.existsSync fs1 out = true).
  { destruct (Fs.existsSync (disk w) out) eqn:Hex.
    - by injection Hmade as <-.
    - unfold Fs.mkdirSync in Hmade.
      destruct (existsb _ _) eqn:Hfree; [discriminate |].
      destruct (mkdirSync_makes (disk w) out Hfree) as (fs' & Hmk & Hd & _).
      unfold Fs.mkdirSync in Hmk. rewrite Hfree in Hmk.
      injection Hmade as <-. injection Hmk as <-.
      unfold Fs.existsSync. by rewrite Hd. }
  unfold Fs.writeFileSync, Fs.write in Hbody.
  destruct (Fs.is_dir fs1 path) eqn:Hnotdir; [discriminate |].
  destruct (existsb (Fs.is_file fs1) (Path.prefixes (Path.dirname path)))
    eqn:Hfree1; [discriminate |].
  destruct (Fs.is_dir fs1 (Path.dirname path)) eqn:Hparent; [| discriminate].
  injection Hbody as <-. cbn [disk].
  assert (Hout2 : Fs.existsSync
            (Fs.mkFs (Fs.dirs fs1)
               (<[path := TokenList.csvContent details]> (Fs.files fs1))) out = true).
  { unfold Fs.existsSync, Fs.is_file in *. cbn [Fs.files].
    apply orb_true_iff in Hout as [Hd | Hf].
    - apply orb_true_iff. left. exact Hd.
    - apply orb_true_iff. right.
      destruct (decide (path = out)) as [-> | Hne].
      + by rewrite lookup_insert_eq.
      + by rewrite lookup_insert_ne. }
  rewrite Hout2. unfold Fs.writeFileSync, Fs.write.
  change (Fs.is_dir (Fs.mkFs (Fs.dirs fs1) _) path) with (Fs.is_dir fs1 path).
  change (Fs.is_dir (Fs.mkFs (Fs.dirs fs1) _) (Path.dirname path))
    with (Fs.is_dir fs1 (Path.dirname path)).
  rewrite block_after_write by (by apply is_dir_false in Hnotdir as [? _]).
  rewrite Hnotdir, Hfree1, Hparent. cbn [fst snd disk console Fs.dirs Fs.files].
  repeat split. by rewrite insert_insert_eq.
Qed.

(** X12: whatever fails, the function returns normally.  Every run ends
    without an exception and adds one line to the console, the success line
    or the error line of the handler, whether the error comes from the
    exchange, from the directory or from the file; the log stays as it is
    and no append is asked for. *)
Theorem token_list_never_throws
    (dirname : list string) (s : TokenList.script) (w : World) :
  let w' := fst (TokenList.checkSymbolAvailability dirname s w) in
  snd (TokenList.checkSymbolAvailability dirname s w) = Ok tt /\
  logFile w' = logFile w /\
  appendRequests w' = appendRequests w /\
  exists line,
    console w' = console w ++ [line] /\
    (line = "CSV file written successfully to " +:+
            TokenList.show (TokenList.filePath dirname s) \/
     exists error, line = "Error fetching Binance exchange details: " +:+ error).
Proof.
  cbv zeta. unfold TokenList.checkSymbolAvailability, try_catch.
  rewrite body_unfold.
  destruct (getExchangeDetails _) as [details | e]; cbv zeta.
  - destruct (if Fs.existsSync _ _ then _ else _) as [fs1 | e].
    + destruct (Fs.writeFileSync _ _ _) as [fs2 | e]; simpl;
        repeat split; eexists; split; eauto.
    + simpl. repeat split. eexists. split; eauto.
  - simpl. repeat split. eexists. split; eauto.
Qed.

(** X13: the one [catch] serves the disk as well.  When the exchange has
    answered but the output directory cannot be made, because it is missing
    and a component of its path is a regular file, the error of [mkdirSync]
    is printed under the text for a failed fetch, the disk is as before and
    the function returns normally. *)
Theorem token_list_reports_a_failed_mkdir_as_a_fetch_error
    (dirname : list string) (s : TokenList.script) (w : World)
    (details : Tardis.exchangeDetails) :
  getExchangeDetails s.(TokenList.exchangeName) = Ok details ->
  Fs.existsSync (disk w) (TokenList.outputDir dirname s) = false ->
  existsb (Fs.is_file (disk w)) (Path.prefixes (TokenList.outputDir dirname s))
    = true ->
  TokenList.checkSymbolAvailability dirname s w =
    (mkWorld (disk w) (logFile w)
       (console w ++ ["Error fetching Binance exchange details: " +:+ "ENOTDIR"])
       (clockReads w) (appendRequests w),
     Ok tt).
Proof.
  intros Hfetch Hmissing Hblocked.
  unfold TokenList.checkSymbolAvailability, try_catch.
  rewrite body_unfold, Hfetch. cbv zeta. rewrite Hmissing.
  unfold Fs.mkdirSync. by rewrite Hblocked.
Qed.

End ListsMore.

(** ** Where the scripts write *)

Lemma join_up (dirname below : list string) :
  forallb plain dirname = true -> forallb plain below = true ->
  Path.join dirname (".." :: below) = removelast dirname ++ below.
Proof.
  intros Hdir Hbelow. unfold Path.join.
  rewrite fold_left_app, (fold_step_plain dirname []) by assumption.
  simpl. unfold Path.step at 2. simpl. by apply fold_step_plain.
Qed.

(** X14: the scripts write beside their own directory, not inside it.
    For a script in the directory [dirname] (given without [.] or [..]), the
    live saver writes to [data/uncleaned/orderbook_snapshot_data] and the
    token lists to [data/uncleaned/binance_token_list/binance_token_list.csv]
    and [data/uncleaned/bybit_token_list/bybit_token_list.csv], all under the
    parent of [dirname]. *)
Theorem scripts_write_beside_their_directory (dirname : list string) :
  forallb plain dirname = true ->
  Live.dataDir dirname =
    removelast dirname ++ ["data"; "uncleaned"; "orderbook_snapshot_data"] /\
  TokenList.filePath dirname TokenList.binance =
    removelast dirname ++
      ["data"; "uncleaned"; "binance_token_list"; "binance_token_list.csv"] /\
  TokenList.filePath dirname TokenList.bybit =
    removelast dirname ++
      ["data"; "uncleaned"; "bybit_token_list"; "bybit_token_list.csv"].
Proof.
  intros Hdir.
  assert (Hup : forall below name,
            forallb plain below = true -> plain name = true ->
            Path.join (Path.join dirname (".." :: below)) [name] =
            removelast dirname ++ below ++ [name]).
  { intros below name Hbelow Hname.
    destruct (join_file (Path.join dirname (".." :: below)) name) as [-> _];
      [apply join_clean | done |].
    by rewrite join_up, <- app_assoc. }
  repeat split.
  - unfold Live.dataDir. by apply join_up.
  - unfold TokenList.filePath, TokenList.outputDir. by apply Hup.
  - unfold TokenList.filePath, TokenList.outputDir. by apply Hup.
Qed.

(** * The properties on the concrete run *)

#[local] Existing Instance Sample.tardis.
#[local] Existing Instance Sample.api.

(** Two runs with every append completing before the next is asked for. *)
Example replay_run_writes_three_rows :
  let run := bind (Replay.constructor "binance-futures" "btcusdt" ["btcusdt.csv"]
                     Sample.dataDir "2019-11-17")
               (Replay.startSavingSnapshots Sample.calm) in
  content (fst (run Sample.boot)) (Sample.dataDir ++ ["btcusdt.csv"]) =
    csvHeader +:+
    ("60000,60005,100,5,101,3" +:+ nl) +:+
    ("120000,120005,100,7,101,3" +:+ nl) +:+
    ("180000,180005,,,101,3" +:+ nl).
Proof. vm_compute. reflexivity. Qed.

Example flaky_run_loses_the_second_row :
  let run := bind (Replay.constructor "binance-futures" "btcusdt" ["btcusdt.csv"]
                     Sample.dataDir "2019-11-17")
               (Replay.startSavingSnapshots Sample.flaky) in
  content (fst (run Sample.boot)) (Sample.dataDir ++ ["btcusdt.csv"]) =
    csvHeader +:+
    ("60000,60005,100,5,101,3" +:+ nl) +:+
    ("180000,180005,,,101,3" +:+ nl) /\
  logFile (fst (run Sample.boot)) =
    [ "[2019-11-17T00:00:00.000Z] Processed and saved CSV row" +:+ nl;
      "[2019-11-17T00:00:01.000Z] Error writing to CSV file: Error: EMFILE: too many open files" +:+ nl;
      "[2019-11-17T00:00:02.000Z] Processed and saved CSV row" +:+ nl ].
Proof. vm_compute. split; reflexivity. Qed.

(** The live script as it stands, on a stream that has snapshots to give:
    the file gets its header and nothing more. *)
Example live_script_saves_nothing :
  let w := fst (Live.main Sample.here Sample.calm Sample.boot) in
  content w (Live.dataDir Sample.here ++ ["orderbook_snapshot_data.csv"]) = csvHeader /\
  appendRequests w = [] /\
  logFile w = ["[2019-11-17T00:00:00.000Z] " +:+ notInitialized +:+ nl].
Proof. vm_compute. repeat split; reflexivity. Qed.

Lemma failed_append_witness :
  is_book_snapshot Sample.first = true /\
  appendError Sample.full Sample.file (csvRow Sample.first) Sample.built
    = Some Sample.enospc /\
  let w1 := fst (onMessage Sample.full Sample.file Sample.first Sample.built) in
  logFile w1 =
    logFile Sample.built ++
      ["[" +:+ now Sample.full (clockReads Sample.built) +:+ "] " +:+
       ("Error writing to CSV file: " +:+ Sample.enospc) +:+ nl] /\
  disk w1 = disk Sample.built /\
  forAwait (onMessage Sample.full Sample.file) [Sample.first; Sample.second]
      Sample.built =
    forAwait (onMessage Sample.full Sample.file) [Sample.second] w1 /\
  snd (forAwait (onMessage Sample.full Sample.file) [Sample.first; Sample.second]
         Sample.built) = Ok tt /\
  appendRequests (fst (forAwait (onMessage Sample.full Sample.file)
                         [Sample.first; Sample.second] Sample.built)) =
    appendRequests Sample.built ++
      (Sample.file, csvRow Sample.first) :: rowsFor Sample.file [Sample.second].
Proof.
  assert (Hsnap : is_book_snapshot Sample.first = true) by reflexivity.
  assert (Herr : appendError Sample.full Sample.file (csvRow Sample.first)
                   Sample.built = Some Sample.enospc) by reflexivity.
  exact (conj Hsnap (conj Herr
           (failed_append_is_logged_and_passed_over Sample.full Sample.file
              Sample.first [Sample.second] Sample.built Sample.enospc Hsnap Herr))).
Defined.


Lemma token_list_witness :
  let w' := fst (TokenList.body Sample.here TokenList.binance Sample.boot) in
  TokenList.body Sample.here TokenList.binance Sample.boot = (w', Ok tt) /\
  TokenList.checkSymbolAvailability Sample.here TokenList.binance Sample.boot =
    (w', Ok tt) /\
  exists details,
    getExchangeDetails (TokenList.exchangeName TokenList.binance) = Ok details /\
    Fs.files (disk w') !! TokenList.filePath Sample.here TokenList.binance =
      Some ("id,type,availableSince" +:+ nl +:+
            join nl (map lineOf (Tardis.availableSymbols details))) /\
    length (map lineOf (Tardis.availableSymbols details)) =
      length (Tardis.availableSymbols details) /\
    forall i symbol,
      Tardis.availableSymbols details !! i = Some symbol ->
      map lineOf (Tardis.availableSymbols details) !! i =
        Some (Tardis.id symbol +:+ "," +:+ Tardis.symbol_type symbol +:+ "," +:+
              Tardis.availableSince symbol).
Proof.
  assert (Hbody : TokenList.body Sample.here TokenList.binance Sample.boot =
    (fst (TokenList.body Sample.here TokenList.binance Sample.boot), Ok tt))
    by (vm_compute; reflexivity).
  exact (conj Hbody
           (token_list_file_lists_every_symbol Sample.here TokenList.binance
              Sample.boot _ Hbody)).
Defined.

Example binance_list_on_disk :
  content (fst (TokenList.checkBinanceSymbolAvailability Sample.here Sample.boot))
    ["repo"; "data"; "uncleaned"; "binance_token_list"; "binance_token_list.csv"] =
  "id,type,availableSince" +:+ nl +:+
  "btcusdt,perpetual,2019-11-17T00:00:00.000Z" +:+ nl +:+
  "ethusdt,perpetual,2019-11-27T00:00:00.000Z".
Proof. vm_compute. reflexivity. Qed.

Lemma failed_fetch_witness :
  getExchangeDetails (TokenList.exchangeName TokenList.bybit) =
    Throw "Error: Request failed with status code 401" /\
  TokenList.checkBybitSymbolAvailability Sample.here Sample.boot =
    (mkWorld Sample.disk0 []
       ["Error fetching Binance exchange details: Error: Request failed with status code 401"]
       0 [],
     Ok tt).
Proof.
  assert (Hfetch : getExchangeDetails (TokenList.exchangeName TokenList.bybit) =
    Throw "Error: Request failed with status code 401") by reflexivity.
  exact (conj Hfetch
           (failed_fetch_is_reported_and_changes_nothing Sample.here TokenList.bybit
              Sample.boot _ Hfetch)).
Defined.

(** ** The further properties on the concrete run *)


Lemma live_new_disk_witness :
  Fs.existsSync (disk Sample.boot) (Live.dataDir Sample.here) = false /\
  existsb (Fs.is_file (disk Sample.boot)) (Path.prefixes (Live.dataDir Sample.here))
    = false /\
  Fs.existsSync (disk Sample.boot)
    (Live.dataDir Sample.here ++ ["orderbook_snapshot_data.csv"]) = false /\
  let w' := fst (Live.main (num := Z) Sample.here Sample.calm Sample.boot) in
  snd (Live.main (num := Z) Sample.here Sample.calm Sample.boot) =
    Ok (Live.fields Sample.here "bitmex" "XBTUSD" ["orderbook_snapshot_data.csv"]) /\
  Live.filePath (Live.fields (num := Z) Sample.here "bitmex" "XBTUSD"
                   ["orderbook_snapshot_data.csv"]) =
    Live.dataDir Sample.here ++ ["orderbook_snapshot_data.csv"] /\
  Fs.is_dir (disk w') (Live.dataDir Sample.here) = true /\
  Fs.files (disk w') =
    <[Live.dataDir Sample.here ++ ["orderbook_snapshot_data.csv"] := csvHeader]>
      (Fs.files (disk Sample.boot)) /\
  logFile w' =
    logFile Sample.boot ++ [logLine Sample.calm (clockReads Sample.boot) notInitialized] /\
  appendRequests w' = appendRequests Sample.boot.
Proof.
  assert (Hnodir : Fs.existsSync (disk Sample.boot) (Live.dataDir Sample.here) = false)
    by (vm_compute; reflexivity).
  assert (Hfree : existsb (Fs.is_file (disk Sample.boot))
                    (Path.prefixes (Live.dataDir Sample.here)) = false)
    by (vm_compute; reflexivity).
  assert (Hnofile : Fs.existsSync (disk Sample.boot)
            (Live.dataDir Sample.here ++ ["orderbook_snapshot_data.csv"]) = false)
    by (vm_compute; reflexivity).
  exact (conj Hnodir (conj Hfree (conj Hnofile
           (live_script_on_a_new_disk Sample.here Sample.calm Sample.boot
              Hnodir Hfree Hnofile)))).
Defined.

Lemma writable_disk_witness :
  getExchangeDetails (TokenList.exchangeName TokenList.binance) = Ok Sample.listed /\
  plain (TokenList.fileName TokenList.binance) = true /\
  existsb (Fs.is_file (disk Sample.boot))
    (Path.prefixes (TokenList.outputDir Sample.here TokenList.binance)) = false /\
  Fs.is_dir (disk Sample.boot) (TokenList.filePath Sample.here TokenList.binance)
    = false /\
  let w' := fst (TokenList.checkSymbolAvailability Sample.here TokenList.binance
                   Sample.boot) in
  snd (TokenList.checkSymbolAvailability Sample.here TokenList.binance Sample.boot)
    = Ok tt /\
  Fs.files (disk w') =
    <[TokenList.filePath Sample.here TokenList.binance :=
        TokenList.csvContent Sample.listed]> (Fs.files (disk Sample.boot)) /\
  Fs.is_dir (disk w') (TokenList.outputDir Sample.here TokenList.binance) = true /\
  console w' =
    console Sample.boot ++
      ["CSV file written successfully to " +:+
       TokenList.show (TokenList.filePath Sample.here TokenList.binance)].
Proof.
  assert (Hfetch : getExchangeDetails (TokenList.exchangeName TokenList.binance)
                   = Ok Sample.listed) by reflexivity.
  assert (Hname : plain (TokenList.fileName TokenList.binance) = true)
    by reflexivity.
  assert (Hfree : existsb (Fs.is_file (disk Sample.boot))
            (Path.prefixes (TokenList.outputDir Sample.here TokenList.binance))
            = false) by (vm_compute; reflexivity).
  assert (Hnotdir : Fs.is_dir (disk Sample.boot)
            (TokenList.filePath Sample.here TokenList.binance) = false)
    by (vm_compute; reflexivity).
  exact (conj Hfetch (conj Hname (conj Hfree (conj Hnotdir
           (token_list_succeeds_on_a_writable_disk Sample.here TokenList.binance
              Sample.boot Sample.listed Hfetch Hname Hfree Hnotdir))))).
Defined.

Lemma rerun_witness :
  TokenList.body Sample.here TokenList.binance Sample.boot =
    (Sample.listedOnce, Ok tt) /\
  let w2 := fst (TokenList.checkSymbolAvailability Sample.here TokenList.binance
                   Sample.listedOnce) in
  snd (TokenList.checkSymbolAvailability Sample.here TokenList.binance
         Sample.listedOnce) = Ok tt /\
  disk w2 = disk Sample.listedOnce /\
  console w2 =
    console Sample.listedOnce ++
      ["CSV file written successfully to " +:+
       TokenList.show (TokenList.filePath Sample.here TokenList.binance)].
Proof.
  assert (Hbody : TokenList.body Sample.here TokenList.binance Sample.boot
                  = (Sample.listedOnce, Ok tt)) by (vm_compute; reflexivity).
  exact (conj Hbody
           (token_list_rerun_keeps_the_disk Sample.here TokenList.binance
              Sample.boot Sample.listedOnce Hbody)).
Defined.

Lemma failed_mkdir_witness :
  getExchangeDetails (TokenList.exchangeName Sample.blocked) = Ok Sample.listed /\
  Fs.existsSync (disk Sample.built)
    (TokenList.outputDir Sample.dataDir Sample.blocked) = false /\
  existsb (Fs.is_file (disk Sample.built))
    (Path.prefixes (TokenList.outputDir Sample.dataDir Sample.blocked))
    = true /\
  TokenList.checkSymbolAvailability Sample.dataDir
    Sample.blocked Sample.built =
    (mkWorld (disk Sample.built) (logFile Sample.built)
       (console Sample.built ++
          ["Error fetching Binance exchange details: " +:+ "ENOTDIR"])
       (clockReads Sample.built) (appendRequests Sample.built),
     Ok tt).
Proof.
  assert (Hfetch : getExchangeDetails (TokenList.exchangeName Sample.blocked)
                   = Ok Sample.listed) by reflexivity.
  assert (Hmissing : Fs.existsSync (disk Sample.built)
    (TokenList.outputDir Sample.dataDir Sample.blocked) = false)
    by (vm_compute; reflexivity).
  assert (Hblocked : existsb (Fs.is_file (disk Sample.built))
    (Path.prefixes (TokenList.outputDir Sample.dataDir Sample.blocked))
    = true) by (vm_compute; reflexivity).
  exact (conj Hfetch (conj Hmissing (conj Hblocked
           (token_list_reports_a_failed_mkdir_as_a_fetch_error Sample.dataDir
              Sample.blocked Sample.built Sample.listed Hfetch Hmissing Hblocked)))).
Defined.

Lemma beside_witness :
  forallb plain Sample.here = true /\
  Live.dataDir Sample.here =
    removelast Sample.here ++ ["data"; "uncleaned"; "orderbook_snapshot_data"] /\
  TokenList.filePath Sample.here TokenList.binance =
    removelast Sample.here ++
      ["data"; "uncleaned"; "binance_token_list"; "binance_token_list.csv"] /\
  TokenList.filePath Sample.here TokenList.bybit =
    removelast Sample.here ++
      ["data"; "uncleaned"; "bybit_token_list"; "bybit_token_list.csv"].
Proof.
  assert (Hdir : forallb plain Sample.here = true) by reflexivity.
  exact (conj Hdir (scripts_write_beside_their_directory Sample.here Hdir)).
Defined.

(** ** The range and the directory on the concrete run *)

Lemma ranged_is_bounded : replayIsBounded (TD := Sample.ranged) Sample.between.
Proof.
  intros options messages Hreturned.
  assert (messages = Sample.replayed options) as -> by (simpl in Hreturned; congruence).
  apply List.Forall_forall. unfold Sample.replayed.
  intros message [_ Hin]%List.filter_In.
  apply andb_true_iff in Hin as [Hfrom Hto]. unfold Sample.between. lia.
Qed.


Lemma missing_directory_witness :
  Fs.existsSync (disk Sample.boot) (Path.join ["repo"; "nowhere"] ["btcusdt.csv"])
    = false /\
  Fs.is_dir (disk Sample.boot)
    (Path.dirname (Path.join ["repo"; "nowhere"] ["btcusdt.csv"])) = false /\
  Replay.constructor (num := Z) "binance-futures" "btcusdt" ["btcusdt.csv"]
    ["repo"; "nowhere"] "2019-11-17" Sample.boot =
    (Sample.boot,
     Throw (if existsb (Fs.is_file (disk Sample.boot))
                 (Path.prefixes
                    (Path.dirname (Path.join ["repo"; "nowhere"] ["btcusdt.csv"])))
            then "ENOTDIR" else "ENOENT")).
Proof.
  assert (Hnew : Fs.existsSync (disk Sample.boot)
            (Path.join ["repo"; "nowhere"] ["btcusdt.csv"]) = false)
    by (vm_compute; reflexivity).
  assert (Hdir : Fs.is_dir (disk Sample.boot)
            (Path.dirname (Path.join ["repo"; "nowhere"] ["btcusdt.csv"])) = false)
    by (vm_compute; reflexivity).
  exact (conj Hnew (conj Hdir
           (replay_constructor_needs_its_directory "binance-futures" "btcusdt"
              ["btcusdt.csv"] ["repo"; "nowhere"] "2019-11-17" Sample.boot
              Hnew Hdir))).
Defined.

(** The two ways a construction fails: the directory is missing, or the
    CSV file of another saver stands where the directory should be. *)
Example construction_without_directory :
  snd (Replay.constructor (num := Z) "binance-futures" "btcusdt" ["btcusdt.csv"]
         ["repo"; "nowhere"] "2019-11-17" Sample.boot) = Throw "ENOENT" /\
  snd (Replay.constructor (num := Z) "binance-futures" "ethusdt" ["ethusdt.csv"]
         Sample.file "2019-11-17" Sample.built) = Throw "ENOTDIR".
Proof. vm_compute. split; reflexivity. Qed.
